(** * single-path-nas: the MnasNet block-string codec and configuration assembly

    A shallow embedding of [runtime-modeling/models.py]:
    the class [MnasNetDecoder] (block strings to [BlockArgs] and back), the
    preset [mnasnet_backbone] and the configuration part of
    [build_mnasnet_model].

    The embedding follows Python 3.  Strings are sequences of code points
    below 256 (Rocq's [string]); on that range the regular expression class
    [\d] is exactly the ASCII digits.  Integers are unbounded, and [int] and
    [str] convert numerals of any length (no limit on the number of digits
    is set).  Exceptions are values of [exn], and a computation that may
    raise returns a [result]. *)

From Stdlib Require Import ZArith NArith String Ascii List Bool Lia.
From Stdlib Require Import DecimalString DecimalZ DecimalPos DecimalN Floats.
From stdpp Require Import base option list gmap strings.

Local Open Scope string_scope.
Local Open Scope list_scope.
Local Open Scope Z_scope.

(* A decimal literal denotes the nearest binary64 value, in Python as here. *)
#[global] Set Warnings "-inexact-float".

(** ** Exceptions and results *)

Inductive exn : Type :=
| ValueError_strides
    (* ValueError('Strides options should be a pair of integers.') *)
| ValueError_int (literal : string)
    (* ValueError: invalid literal for int() with base 10 *)
| ValueError_float (literal : string)
    (* ValueError: could not convert string to float *)
| ValueError_nan
    (* ValueError: cannot convert float NaN to integer *)
| ValueError_fields (names : list string)
    (* ValueError: Got unexpected field names (namedtuple._replace) *)
| KeyError (key : string)
| IndexError
| OverflowError
| TypeError (msg : string)
| NotImplementedError (model_name : string).

Inductive result (A : Type) : Type :=
| Ok (a : A)
| Raise (e : exn).
Arguments Ok {A} a.
Arguments Raise {A} e.

#[global] Instance result_ret : MRet result := fun A a => Ok a.
#[global] Instance result_bind : MBind result := fun A B f m =>
  match m with
  | Ok a => f a
  | Raise e => Raise e
  end.

Definition is_Ok {A} (r : result A) : bool :=
  match r with Ok _ => true | Raise _ => false end.

(** ** The Python built-ins the module uses *)

Module Py.

(** Dynamically typed values, as far as the module stores them. *)
Inductive value : Type :=
| None_
| Bool (b : bool)
| Int (n : Z)
| Float (x : float)
| Str (s : string).

Definition ord (c : ascii) : N := N_of_ascii c.

(** [\d] of [re], and the digits [int] accepts, on code points below 256. *)
Definition isdigit (c : ascii) : bool := ((48 <=? ord c) && (ord c <=? 57))%N.

(** The white space that [int] and [float] strip from the ends of a text,
    on code points below 256: TAB..CR, SPACE, NEL and NBSP.  (The
    separators FS..US count as white space for [str.isspace], but the two
    conversions do not strip them.) *)
Definition isspace (c : ascii) : bool :=
  (((9 <=? ord c) && (ord c <=? 13)) || (ord c =? 32)
   || (ord c =? 133) || (ord c =? 160))%N.

Definition newline : ascii := ascii_of_N 10.

Definition digit_value (c : ascii) : Z := Z.of_N (ord c) - 48.

Fixpoint lstrip (s : string) : string :=
  match s with
  | String c s' => if isspace c then lstrip s' else s
  | EmptyString => EmptyString
  end.

Fixpoint rstrip (s : string) : string :=
  match s with
  | String c s' =>
      match rstrip s' with
      | EmptyString => if isspace c then EmptyString else String c EmptyString
      | r => String c r
      end
  | EmptyString => EmptyString
  end.

Definition strip (s : string) : string := rstrip (lstrip s).

(** The digit part of an integer literal: digits, single underscores
    allowed between two digits.  [after_digit] tells whether the previous
    character was a digit. *)
Fixpoint int_digits (acc : Z) (after_digit : bool) (s : string) : option Z :=
  match s with
  | EmptyString => if after_digit then Some acc else None
  | String c s' =>
      if isdigit c then int_digits (10 * acc + digit_value c) true s'
      else if Ascii.eqb c "_" && after_digit then int_digits acc false s'
      else None
  end.

(** [int(s)] for a [str] argument, base 10. *)
Definition int_of_str (s : string) : result Z :=
  let parsed :=
    match strip s with
    | String "+" t => int_digits 0 false t
    | String "-" t => Z.opp <$> int_digits 0 false t
    | t => int_digits 0 false t
    end in
  match parsed with
  | Some n => Ok n
  | None => Raise (ValueError_int s)
  end.

(** ['%d' % n] and [str(n)] for an [int]. *)
Definition str_int (n : Z) : string := NilZero.string_of_int (Z.to_int n).

(** [s.split(sep)] for a one-character separator. *)
Fixpoint split (sep : ascii) (s : string) : list string :=
  match s with
  | EmptyString => [EmptyString]
  | String c s' =>
      if Ascii.eqb c sep then EmptyString :: split sep s'
      else match split sep s' with
           | tok :: toks => String c tok :: toks
           | [] => [String c EmptyString]
           end
  end.

(** [sep.join(l)]. *)
Definition join (sep : string) (l : list string) : string := String.concat sep l.

(** [sub in s]. *)
Fixpoint contains (sub s : string) : bool :=
  String.prefix sub s
  || match s with
     | String _ s' => contains sub s'
     | EmptyString => false
     end.

(** [all(p(c) for c in s)]. *)
Fixpoint all_chars (p : ascii -> bool) (s : string) : bool :=
  match s with
  | String c s' => p c && all_chars p s'
  | EmptyString => true
  end.

(** [len(s)]. *)
Definition len (s : string) : Z := Z.of_nat (String.length s).

(** [s[i]] for [0 <= i], a one-character string. *)
Definition char_at (s : string) (i : nat) : result string :=
  match String.get i s with
  | Some c => Ok (String c EmptyString)
  | None => Raise IndexError
  end.

(** [d[key]] for a dictionary with string keys. *)
Definition getitem {A} (d : gmap string A) (key : string) : result A :=
  match d !! key with
  | Some a => Ok a
  | None => Raise (KeyError key)
  end.

(** [l[i]] for a list and [0 <= i]. *)
Definition item {A} (l : list A) (i : nat) : result A :=
  match l !! i with
  | Some a => Ok a
  | None => Raise IndexError
  end.

Definition push_char (c : ascii) (pieces : list string) : list string :=
  match pieces with
  | p :: ps => String c p :: ps
  | [] => [String c EmptyString]
  end.

(** [re.split(pattern, s)] for the pattern of [_decode_block_string], one
    capturing group holding [\d] and then [.] repeated: the pieces between
    the matches, each followed by the match itself.  A match runs
    from a digit up to the next newline or the end ([.] does not match a
    newline); [in_match] tells whether the scan is inside one.  A newline
    ends the match and is the first character of the next piece. *)
Fixpoint re_split_scan (in_match : bool) (s : string) : list string :=
  match s with
  | EmptyString => if in_match then [EmptyString; EmptyString] else [EmptyString]
  | String c s' =>
      if in_match then
        if Ascii.eqb c newline
        then EmptyString :: push_char c (re_split_scan false s')
        else push_char c (re_split_scan true s')
      else
        if isdigit c then EmptyString :: push_char c (re_split_scan true s')
        else push_char c (re_split_scan false s')
  end.

Definition re_split (s : string) : list string := re_split_scan false s.

(** [int(v)] for a value. *)
Definition int (v : value) : result Z :=
  match v with
  | Int n => Ok n
  | Bool b => Ok (if b then 1 else 0)
  | Str s => int_of_str s
  | Float x =>
      match Prim2SF x with
      | S754_zero _ => Ok 0
      | S754_finite sign m e =>
          let magnitude :=
            match e with
            | Zneg k => Z.shiftr (Zpos m) (Zpos k)
            | _ => Z.shiftl (Zpos m) e
            end in
          Ok (if sign then - magnitude else magnitude)
      | S754_infinity _ => Raise OverflowError
      | S754_nan => Raise ValueError_nan
      end
  | None_ =>
      Raise (TypeError "int() argument must be a string, a bytes-like object or a real number, not 'NoneType'")
  end.

(** [str(x)] and [float(s)] for a [float] and a [str]: the two conversions
    between floats and text, with [None] for the [ValueError] of [float]. *)
Class FloatText : Type := {
  str_float : float -> string;
  float_of_str : string -> option float
}.

End Py.


(** ** Python 3's conversions between floats and text

    [float(s)] reads a decimal literal and rounds it to the nearest binary64
    value, ties to even; [str(x)] (and [repr(x)], and ['%s' % x]) writes the
    shortest decimal text that [float] reads back as [x]. *)

Module Py3Float.

Inductive scan_state : Type := AtStart | AfterDigit | AfterUnderscore.

(** A run of digits with single underscores between them: its value on top
    of [acc], the number of digits, and the text after the run. *)
Fixpoint scan_digits (acc count : Z) (st : scan_state) (s : string)
  : option (Z * Z * string) :=
  let stop := match st with
              | AfterUnderscore => None
              | _ => Some (acc, count, s)
              end in
  match s with
  | EmptyString => stop
  | String c s' =>
      if Py.isdigit c
      then scan_digits (10 * acc + Py.digit_value c) (count + 1) AfterDigit s'
      else if Ascii.eqb c "_"
      then match st with
           | AfterDigit => scan_digits acc count AfterUnderscore s'
           | _ => None
           end
      else stop
  end.

Definition split_sign (s : string) : bool * string :=
  match s with
  | String "-" t => (true, t)
  | String "+" t => (false, t)
  | _ => (false, s)
  end.

(** A decimal literal without sign as mantissa and power of ten. *)
Definition float_literal (s : string) : option (Z * Z) :=
  '(int_part, n_int, rest) ← scan_digits 0 0 AtStart s;
  '(mantissa, n_frac, rest) ←
     match rest with
     | String "." r => scan_digits int_part 0 AtStart r
     | _ => Some (int_part, 0, rest)
     end;
  if Z.eqb (n_int + n_frac) 0 then None
  else match rest with
       | EmptyString => Some (mantissa, - n_frac)
       | String c r =>
           if Ascii.eqb c "e" || Ascii.eqb c "E" then
             let '(negative, r) := split_sign r in
             '(e, n_e, rest) ← scan_digits 0 0 AtStart r;
             if Z.eqb n_e 0 || negb (String.eqb rest "") then None
             else Some (mantissa, (if negative : bool then - e else e) - n_frac)
           else None
       end.

(** The binary64 value nearest to [mantissa * 10 ^ e10], ties to even. *)
Definition of_decimal (negative : bool) (mantissa e10 : Z) : float :=
  match mantissa with
  | Zpos _ =>
      let num := if 0 <=? e10 then mantissa * 10 ^ e10 else mantissa in
      let den := if 0 <=? e10 then 1 else 10 ^ (- e10) in
      SF2Prim (SFdiv prec emax (S754_finite negative (Z.to_pos num) 0)
                               (S754_finite false (Z.to_pos den) 0))
  | _ => if negative then neg_zero else zero
  end.

Definition lower (c : ascii) : ascii :=
  if ((65 <=? Py.ord c) && (Py.ord c <=? 90))%N
  then ascii_of_N (Py.ord c + 32) else c.

Fixpoint lowercase (s : string) : string :=
  match s with
  | String c s' => String (lower c) (lowercase s')
  | EmptyString => EmptyString
  end.

Definition float_of_str (s : string) : option float :=
  let '(negative, t) := split_sign (Py.strip s) in
  let name := lowercase t in
  if String.eqb name "inf" || String.eqb name "infinity"
  then Some (if negative then neg_infinity else infinity)
  else if String.eqb name "nan" then Some nan
  else '(mantissa, e10) ← float_literal t; Some (of_decimal negative mantissa e10).

(** [num / den < 10 ^ k]. *)
Definition below_pow10 (num den k : Z) : bool :=
  if 0 <=? k then num <? den * 10 ^ k else num * 10 ^ (- k) <? den.

(** The least [k' >= k] with [num / den < 10 ^ k']. *)
Fixpoint find_decpt (fuel : nat) (num den k : Z) : Z :=
  match fuel with
  | S fuel' => if below_pow10 num den k then k else find_decpt fuel' num den (k + 1)
  | O => k
  end.

(** The two integers around [num / den * 10 ^ (p - k)], the nearer first
    (the even one on a tie). *)
Definition candidates (num den k p : Z) : Z * Z :=
  let num' := if 0 <=? p - k then num * 10 ^ (p - k) else num in
  let den' := if 0 <=? p - k then den else den * 10 ^ (k - p) in
  let lo := num' / den' in
  match 2 * (num' mod den') ?= den' with
  | Lt => (lo, lo + 1)
  | Gt => (lo + 1, lo)
  | Eq => if Z.even lo then (lo, lo + 1) else (lo + 1, lo)
  end.

(** The first precision [p], [fuel] more to try, at which one of the
    candidates reads back as [x]; seventeen digits always do. *)
Fixpoint shortest (fuel : nat) (x : float) (num den k p : Z) : Z * Z :=
  let '(c1, c2) := candidates num den k p in
  match fuel with
  | S fuel' =>
      if PrimFloat.eqb (of_decimal false c1 (k - p)) x then (c1, k - p)
      else if PrimFloat.eqb (of_decimal false c2 (k - p)) x then (c2, k - p)
      else shortest fuel' x num den k (p + 1)
  | O => (c1, k - p)
  end.

Fixpoint rstrip_zeros (s : string) : string :=
  match s with
  | String c s' =>
      match rstrip_zeros s' with
      | EmptyString => if Ascii.eqb c "0" then EmptyString else String c EmptyString
      | r => String c r
      end
  | EmptyString => EmptyString
  end.

Fixpoint zeros (n : nat) : string :=
  match n with
  | S n' => String "0" (zeros n')
  | O => EmptyString
  end.

(** The layout of [repr]: [digits] with the decimal point after [decpt] of
    them, in exponent notation when [decpt <= -4] or [decpt > 16]. *)
Definition layout (digits : string) (decpt : Z) : string :=
  let n := Z.of_nat (String.length digits) in
  if (decpt <=? -4) || (16 <? decpt) then
    let e := decpt - 1 in
    let mantissa :=
      match digits with
      | String d EmptyString => digits
      | String d more => String d ("." +:+ more)
      | EmptyString => digits
      end in
    let e_digits := Py.str_int (Z.abs e) in
    mantissa +:+ "e" +:+ (if e <? 0 then "-" else "+")
    +:+ (if Z.abs e <? 10 then "0" else "") +:+ e_digits
  else if decpt <=? 0 then "0." +:+ zeros (Z.to_nat (- decpt)) +:+ digits
  else if n <=? decpt then digits +:+ zeros (Z.to_nat (decpt - n)) +:+ ".0"
  else String.substring 0 (Z.to_nat decpt) digits +:+ "."
       +:+ String.substring (Z.to_nat decpt) (Z.to_nat (n - decpt)) digits.

Definition str_float (x : float) : string :=
  match Prim2SF x with
  | S754_nan => "nan"
  | S754_infinity negative => if negative then "-inf" else "inf"
  | S754_zero negative => if negative then "-0.0" else "0.0"
  | S754_finite negative m e =>
      let num := match e with Zneg _ => Zpos m | _ => Z.shiftl (Zpos m) e end in
      let den := match e with Zneg k => Z.shiftl 1 (Zpos k) | _ => 1 end in
      let k := find_decpt 700 num den (-330) in
      let '(c, e10) := shortest 16 (PrimFloat.abs x) num den k 1 in
      let all_digits := Py.str_int c in
      let decpt := Z.of_nat (String.length all_digits) + e10 in
      (if negative then "-" else "") +:+ layout (rstrip_zeros all_digits) decpt
  end.

End Py3Float.

#[global] Instance python3_float_text : Py.FloatText :=
  {| Py.str_float := Py3Float.str_float;
     Py.float_of_str := Py3Float.float_of_str |}.

(** ** The records of [model_def] *)

Module model_def.

(** Modelled from the spec: [model_def.BlockArgs]; the module [model_def]
    is imported by [models.py] and its source is not at hand.  The fields
    are those [_decode_block_string] passes to the constructor, typed as it
    fills them: integers, a boolean, a list of integers for [strides], and
    a float or [None] for [se_ratio]. *)
Record BlockArgs : Type := {
  kernel_size : Z;
  num_repeat : Z;
  input_filters : Z;
  output_filters : Z;
  expand_ratio : Z;
  id_skip : bool;
  se_ratio : option float;
  strides : list Z
}.

(** Modelled from the spec: [model_def.GlobalParams], of the same module.
    It is a named tuple ([build_mnasnet_model] calls its [_replace]); the
    fields are those [mnasnet_backbone] passes to the constructor, each
    holding any value. *)
Record GlobalParams : Type := {
  batch_norm_momentum : Py.value;
  batch_norm_epsilon : Py.value;
  dropout_rate : Py.value;
  data_format : Py.value;
  num_classes : Py.value;
  depth_multiplier : Py.value;
  depth_divisor : Py.value;
  expratio : Py.value;
  kernel : Py.value;
  min_depth : Py.value
}.

Definition _fields : list string :=
  [ "batch_norm_momentum"; "batch_norm_epsilon"; "dropout_rate"; "data_format";
    "num_classes"; "depth_multiplier"; "depth_divisor"; "expratio"; "kernel";
    "min_depth" ].

(** [getattr(self, name)] for a field name. *)
Definition getattr (self : GlobalParams) (name : string) : option Py.value :=
  if String.eqb name "batch_norm_momentum" then Some (batch_norm_momentum self)
  else if String.eqb name "batch_norm_epsilon" then Some (batch_norm_epsilon self)
  else if String.eqb name "dropout_rate" then Some (dropout_rate self)
  else if String.eqb name "data_format" then Some (data_format self)
  else if String.eqb name "num_classes" then Some (num_classes self)
  else if String.eqb name "depth_multiplier" then Some (depth_multiplier self)
  else if String.eqb name "depth_divisor" then Some (depth_divisor self)
  else if String.eqb name "expratio" then Some (expratio self)
  else if String.eqb name "kernel" then Some (kernel self)
  else if String.eqb name "min_depth" then Some (min_depth self)
  else None.

(** The names of [kwds] that are no fields, in the order the map
    enumerates them. *)
Definition unexpected_names (kwds : gmap string Py.value) : list string :=
  filter (fun name => name ∉ _fields) (map_to_list kwds).*1.

(** [self._replace] with the keyword arguments [kwds], as
    [collections.namedtuple] defines it: every field takes its value from
    [kwds] when the name is there and keeps its own otherwise; names left
    over in [kwds] raise [ValueError]. *)
Definition _replace (self : GlobalParams) (kwds : gmap string Py.value)
  : result GlobalParams :=
  let pop name current := default current (kwds !! name) in
  let result :=
    {| batch_norm_momentum := pop "batch_norm_momentum" (batch_norm_momentum self);
       batch_norm_epsilon := pop "batch_norm_epsilon" (batch_norm_epsilon self);
       dropout_rate := pop "dropout_rate" (dropout_rate self);
       data_format := pop "data_format" (data_format self);
       num_classes := pop "num_classes" (num_classes self);
       depth_multiplier := pop "depth_multiplier" (depth_multiplier self);
       depth_divisor := pop "depth_divisor" (depth_divisor self);
       expratio := pop "expratio" (expratio self);
       kernel := pop "kernel" (kernel self);
       min_depth := pop "min_depth" (min_depth self) |} in
  match unexpected_names kwds with
  | [] => Ok result
  | unexpected => Raise (ValueError_fields unexpected)
  end.

End model_def.

(** ** [class MnasNetDecoder] *)

Module MnasNetDecoder.
Import model_def.

(** [key, value = splits[:2]], taken when [len(splits) >= 2]. *)
Definition key_value (splits : list string) : option (string * string) :=
  match splits with
  | key :: value :: _ => Some (key, value)
  | _ => None
  end.

Section Codec.

Context `{FloatIO : Py.FloatText}.

(** The loop of [_decode_block_string] over the tokens: a token that holds
    a digit enters [options] under the text before its first match, with the
    match as value (the first two pieces of [re.split]); a later token with
    the same key overwrites an earlier one. *)
Definition parse_options (ops : list string) : gmap string string :=
  foldl (fun options op =>
           match key_value (Py.re_split op) with
           | Some (key, value) => <[key := value]> options
           | None => options
           end) ∅ ops.

(** [int(options[key])]. *)
Definition int_option (options : gmap string string) (key : string) : result Z :=
  Py.getitem options key ≫= Py.int_of_str.

(** The dictionary [options] that [_decode_block_string] builds. *)
Definition options_of (block_string : string) : gmap string string :=
  parse_options (Py.split "_" block_string).

Definition _decode_block_string (block_string : string) : result BlockArgs :=
  let options := options_of block_string in
  if match options !! "s" with
     | None => true
     | Some s => negb (Py.len s =? 2)%Z
     end
  then Raise ValueError_strides
  else
    kernel_size ← int_option options "k";
    num_repeat ← int_option options "r";
    input_filters ← int_option options "i";
    output_filters ← int_option options "o";
    expand_ratio ← int_option options "e";
    let id_skip := negb (Py.contains "noskip" block_string) in
    se_ratio ← match options !! "se" with
               | Some v => match Py.float_of_str v with
                           | Some x => Ok (Some x)
                           | None => Raise (ValueError_float v)
                           end
               | None => Ok None
               end;
    s ← Py.getitem options "s";
    stride0 ← Py.char_at s 0 ≫= Py.int_of_str;
    stride1 ← Py.char_at s 1 ≫= Py.int_of_str;
    Ok {| kernel_size := kernel_size;
          num_repeat := num_repeat;
          input_filters := input_filters;
          output_filters := output_filters;
          expand_ratio := expand_ratio;
          id_skip := id_skip;
          se_ratio := se_ratio;
          strides := [stride0; stride1] |}.

(** The comparison [block.se_ratio > 0] comes first.  In Python 3 ordering
    [None] against an [int] raises [TypeError], so a block without
    [se_ratio] never reaches the tokens that follow.  (Python 2 orders
    [None] below every number; the embedding does not model it.) *)
Definition _encode_block_string (block : BlockArgs) : result string :=
  stride0 ← Py.item (strides block) 0;
  stride1 ← Py.item (strides block) 1;
  let args :=
    [ "r" +:+ Py.str_int (num_repeat block);
      "k" +:+ Py.str_int (kernel_size block);
      "s" +:+ Py.str_int stride0 +:+ Py.str_int stride1;
      "e" +:+ Py.str_int (expand_ratio block);
      "i" +:+ Py.str_int (input_filters block);
      "o" +:+ Py.str_int (output_filters block) ] in
  args ← match se_ratio block with
         | Some se =>
             Ok (if PrimFloat.ltb 0 se && PrimFloat.leb se 1
                 then args ++ ["se" +:+ Py.str_float se]
                 else args)
         | None =>
             Raise (TypeError "'>' not supported between instances of 'NoneType' and 'int'")
         end;
  let args := if negb (id_skip block) then args ++ ["noskip"] else args in
  Ok (Py.join "_" args).

Fixpoint decode (string_list : list string) : result (list BlockArgs) :=
  match string_list with
  | [] => Ok []
  | block_string :: rest =>
      block ← _decode_block_string block_string;
      blocks_args ← decode rest;
      Ok (block :: blocks_args)
  end.

Fixpoint encode (blocks_args : list BlockArgs) : result (list string) :=
  match blocks_args with
  | [] => Ok []
  | block :: rest =>
      block_string ← _encode_block_string block;
      block_strings ← encode rest;
      Ok (block_string :: block_strings)
  end.

End Codec.

End MnasNetDecoder.

(** ** The preset and [build_mnasnet_model] *)

Section Models.

Import model_def.
Context `{FloatIO : Py.FloatText}.

Definition mnasnet_backbone (k e : Z) : result (list BlockArgs * GlobalParams) :=
  let blocks_args :=
    [ "r1_k3_s11_e1_i32_o16_noskip";
      "r4_k" +:+ Py.str_int k +:+ "_s22_e" +:+ Py.str_int e +:+ "_i16_o24";
      "r4_k" +:+ Py.str_int k +:+ "_s22_e" +:+ Py.str_int e +:+ "_i24_o40";
      "r4_k" +:+ Py.str_int k +:+ "_s22_e" +:+ Py.str_int e +:+ "_i40_o80";
      "r4_k" +:+ Py.str_int k +:+ "_s11_e" +:+ Py.str_int e +:+ "_i80_o96";
      "r4_k" +:+ Py.str_int k +:+ "_s22_e" +:+ Py.str_int e +:+ "_i96_o192";
      "r1_k3_s11_e6_i192_o320_noskip" ] in
  let global_params :=
    {| batch_norm_momentum := Py.Float 0.99;
       batch_norm_epsilon := Py.Float 1e-3;
       dropout_rate := Py.Float 0.2;
       data_format := Py.Str "channels_last";
       num_classes := Py.Int 1000;
       depth_multiplier := Py.None_;
       depth_divisor := Py.Int 8;
       expratio := Py.Int e;
       kernel := Py.Int k;
       min_depth := Py.None_ |} in
  decoded ← MnasNetDecoder.decode blocks_args;
  Ok (decoded, global_params).

(** [if override_params: global_params = global_params._replace(...)]:
    [None] and the empty dictionary are false. *)
Definition apply_overrides (global_params : GlobalParams)
    (override_params : option (gmap string Py.value)) : result GlobalParams :=
  match override_params with
  | Some kwds => if bool_decide (kwds = ∅) then Ok global_params
                 else _replace global_params kwds
  | None => Ok global_params
  end.

(** [override_params[key]], with [override_params=None] the default. *)
Definition override_item (override_params : option (gmap string Py.value))
    (key : string) : result Py.value :=
  match override_params with
  | Some kwds => Py.getitem kwds key
  | None => Raise (TypeError "'NoneType' object is not subscriptable")
  end.

(** [build_mnasnet_model] up to the two values it hands to
    [model_def.MnasNetModel]; the images, the training flag and the
    TensorFlow graph play no part in them. *)
Definition build_mnasnet_model (model_name : string)
    (override_params : option (gmap string Py.value))
  : result (list BlockArgs * GlobalParams) :=
  if String.eqb model_name "mnasnet-backbone" then
    kernel ← override_item override_params "kernel" ≫= Py.int;
    expratio ← override_item override_params "expratio" ≫= Py.int;
    '(blocks_args, global_params) ← mnasnet_backbone kernel expratio;
    global_params ← apply_overrides global_params override_params;
    Ok (blocks_args, global_params)
  else
    Raise (NotImplementedError model_name).

End Models.

(** ** The invariants of a stage descriptor *)

(** The blocks the round trip is stated for: the five counts are positive,
    [strides] is a pair of digits, and [se_ratio] is absent or lies in the
    interval from 0, excluded, to 1, included. *)
Definition valid_block (block : model_def.BlockArgs) : bool :=
  (0 <? model_def.num_repeat block) && (0 <? model_def.kernel_size block)
  && (0 <? model_def.expand_ratio block)
  && (0 <? model_def.input_filters block)
  && (0 <? model_def.output_filters block)
  && match model_def.strides block with
     | [stride0; stride1] =>
         (0 <=? stride0) && (stride0 <=? 9) && (0 <=? stride1) && (stride1 <=? 9)
     | _ => false
     end
  && match model_def.se_ratio block with
     | Some x => PrimFloat.ltb 0 x && PrimFloat.leb x 1
     | None => true
     end.

(** The shape of the text [str] gives for a natural number and for a
    positive finite float: a digit first, and only digits, [.], [e], [+]
    and [-]. *)
Definition numeric_text (t : string) : bool :=
  match t with
  | String c _ => Py.isdigit c
  | EmptyString => false
  end
  && Py.all_chars (fun c => Py.isdigit c || Ascii.eqb c "." || Ascii.eqb c "e"
                            || Ascii.eqb c "+" || Ascii.eqb c "-") t.

(** The layout of a block string: the six tokens every block has, carrying
    the texts given for their values, then the [se] token when there is a
    text for it, then [noskip] unless [skip]. *)
Definition block_tokens (vr vk vs ve vi vo : string) (vse : option string)
    (skip : bool) : list string :=
  ["r" +:+ vr; "k" +:+ vk; "s" +:+ vs; "e" +:+ ve; "i" +:+ vi; "o" +:+ vo]
  ++ match vse with Some v => ["se" +:+ v] | None => [] end
  ++ (if skip then [] else ["noskip"]).

(** The round trip of the codec: a block is encoded and the string is
    decoded. *)
Definition round_trip `{FloatIO : Py.FloatText} (block : model_def.BlockArgs)
  : result model_def.BlockArgs :=
  MnasNetDecoder._encode_block_string block ≫= MnasNetDecoder._decode_block_string.

(** ** The entries of the options *)

(** The test on the value of an entry: its first character is a digit. *)
Definition starts_with_digit (s : string) : bool :=
  match s with
  | String c _ => Py.isdigit c
  | EmptyString => false
  end.

(** The key and the value a token enters into [options], if it holds a
    digit: the first two pieces of [re.split]. *)
Definition token_entry (op : string) : option (string * string) :=
  MnasNetDecoder.key_value (Py.re_split op).

(** The block string of a stage of [mnasnet_backbone] that carries the
    kernel size [k] and the expansion ratio [e], with its strides and
    filters. *)
Definition stage_string (k e stride0 stride1 i o : Z) : string :=
  "r4_k" +:+ Py.str_int k +:+ "_s" +:+ Py.str_int stride0 +:+ Py.str_int stride1
  +:+ "_e" +:+ Py.str_int e +:+ "_i" +:+ Py.str_int i +:+ "_o" +:+ Py.str_int o.

(** The key of the first negative count of a block, in the order
    [_decode_block_string] reads the counts: [k], [r], [i], [o], [e]. *)
Definition first_negative (block : model_def.BlockArgs) : option string :=
  if model_def.kernel_size block <? 0 then Some "k"
  else if model_def.num_repeat block <? 0 then Some "r"
  else if model_def.input_filters block <? 0 then Some "i"
  else if model_def.output_filters block <? 0 then Some "o"
  else if model_def.expand_ratio block <? 0 then Some "e"
  else None.


(** * Properties *)

Import model_def MnasNetDecoder.

(** ** Results *)

Lemma bind_Ok {A B} (m : result A) (f : A → result B) (b : B) :
  m ≫= f = Ok b ↔ ∃ a, m = Ok a ∧ f a = Ok b.
Proof.
  destruct m as [a|e]; simpl; split.
  - intros H. by exists a.
  - by intros (a' & [= ->] & H).
  - done.
  - by intros (a' & [=] & _).
Qed.

Lemma bind_Raise {A B} (m : result A) (f : A → result B) (e : exn) :
  m ≫= f = Raise e ↔ m = Raise e ∨ ∃ a, m = Ok a ∧ f a = Raise e.
Proof.
  destruct m as [a|e']; simpl; split.
  - intros H. right. by exists a.
  - by intros [[=] | (a' & [= ->] & H)].
  - intros [= ->]. by left.
  - by intros [[= ->] | (a' & [=] & _)].
Qed.

(** ** Texts *)

Lemma app_String (c : ascii) (s t : string) :
  String c s +:+ t = String c (s +:+ t).
Proof. reflexivity. Qed.

Lemma app_empty_l (t : string) : "" +:+ t = t.
Proof. reflexivity. Qed.

Lemma append_assoc (s t u : string) : (s +:+ t) +:+ u = s +:+ t +:+ u.
Proof. induction s as [|c s IH]; [done|]. rewrite !app_String. by rewrite IH. Qed.

Lemma all_chars_app (p : ascii → bool) (s t : string) :
  Py.all_chars p (s +:+ t) = Py.all_chars p s && Py.all_chars p t.
Proof.
  induction s as [|c s IH]; [done|].
  rewrite app_String. simpl. by rewrite IH, andb_assoc.
Qed.

Lemma all_chars_impl (p q : ascii → bool) (s : string) :
  (∀ c, p c = true → q c = true) →
  Py.all_chars p s = true → Py.all_chars q s = true.
Proof.
  intros Hpq. induction s as [|c s IH]; [done|]. simpl.
  rewrite !andb_true_iff. intros [Hc Hs]. auto.
Qed.

Lemma prefix_iff (sub s : string) :
  String.prefix sub s = true ↔ ∃ post, s = sub +:+ post.
Proof.
  revert s. induction sub as [|c sub IH]; intros s; simpl.
  - split; [intros _; by exists s | by destruct s].
  - destruct s as [|c' s]; simpl.
    + split; [done | intros [post Hpost]; discriminate].
    + setoid_rewrite app_String.
      destruct (ascii_dec c c') as [->|Hne].
      * rewrite IH. split; intros [post Hpost]; exists post; congruence.
      * split; [done | intros [post Hpost]; congruence].
Qed.

(** [sub in s] holds exactly when [s] is some text, [sub], and some text. *)
Lemma contains_iff (sub s : string) :
  Py.contains sub s = true ↔ ∃ pre post, s = pre +:+ sub +:+ post.
Proof.
  induction s as [|c s IH]; cbn [Py.contains].
  - rewrite orb_false_r, prefix_iff. split.
    + intros [post Hpost]. by exists "", post.
    + intros [[|c pre] [post Hpost]]; [by exists post | discriminate].
  - rewrite orb_true_iff, prefix_iff, IH. split.
    + intros [[post Hpost] | (pre & post & Hpost)].
      * by exists "", post.
      * exists (String c pre), post. rewrite app_String. by rewrite Hpost.
    + intros [[|c' pre] [post Hpost]].
      * left. by exists post.
      * right. exists pre, post. rewrite app_String in Hpost. congruence.
Qed.

Lemma contains_without_n (s : string) :
  Py.all_chars (λ c, negb (Ascii.eqb c "n")) s = true →
  Py.contains "noskip" s = false.
Proof.
  induction s as [|c s IH]; [done|]. cbn [Py.all_chars Py.contains].
  intros [Hc Hs]%andb_true_iff. rewrite IH by done.
  apply negb_true_iff in Hc. cbn [String.prefix].
  destruct (ascii_dec "n" c) as [<-|?]; [done|].
  reflexivity.
Qed.

Lemma all_chars_join (p : ascii → bool) (sep : string) (tokens : list string) :
  Py.all_chars p sep = true →
  Forall (λ tok, Py.all_chars p tok = true) tokens →
  Py.all_chars p (Py.join sep tokens) = true.
Proof.
  intros Hsep Hall. induction Hall as [|tok tokens Htok Hall IH]; [done|].
  destruct tokens as [|tok' tokens]; [done|].
  change (Py.join sep (tok :: tok' :: tokens))
    with (tok +:+ sep +:+ Py.join sep (tok' :: tokens)).
  rewrite !all_chars_app, Htok, Hsep. exact IH.
Qed.

Lemma join_snoc (sep : string) (tokens : list string) (last : string) :
  tokens ≠ [] →
  Py.join sep (tokens ++ [last]) = Py.join sep tokens +:+ sep +:+ last.
Proof.
  induction tokens as [|tok tokens IH]; [done|]. intros _.
  destruct tokens as [|tok' tokens]; [done|].
  change (Py.join sep ((tok :: tok' :: tokens) ++ [last]))
    with (tok +:+ sep +:+ Py.join sep ((tok' :: tokens) ++ [last])).
  rewrite IH by done.
  change (Py.join sep (tok :: tok' :: tokens))
    with (tok +:+ sep +:+ Py.join sep (tok' :: tokens)).
  by rewrite !append_assoc.
Qed.

Lemma contains_app_r (sub s t : string) :
  Py.contains sub t = true → Py.contains sub (s +:+ t) = true.
Proof.
  rewrite !contains_iff. intros (pre & post & ->).
  exists (s +:+ pre), post. by rewrite append_assoc.
Qed.

(** *** [split] and [join] *)

Lemma split_no_sep (sep : ascii) (s : string) :
  Py.all_chars (λ c, negb (Ascii.eqb c sep)) s = true → Py.split sep s = [s].
Proof.
  induction s as [|c s IH]; [done|]. simpl.
  intros [Hc Hs]%andb_true_iff. apply negb_true_iff in Hc. rewrite Hc.
  by rewrite IH.
Qed.

Lemma split_app_sep (sep : ascii) (s rest : string) :
  Py.all_chars (λ c, negb (Ascii.eqb c sep)) s = true →
  Py.split sep (s +:+ String sep rest) = s :: Py.split sep rest.
Proof.
  induction s as [|c s IH].
  - intros _. rewrite ?app_empty_l. simpl. by rewrite Ascii.eqb_refl.
  - simpl. intros [Hc Hs]%andb_true_iff. apply negb_true_iff in Hc.
    rewrite ?app_String. simpl. rewrite Hc. by rewrite IH.
Qed.

Lemma split_join (sep : ascii) (tokens : list string) :
  tokens ≠ [] →
  Forall (λ tok, Py.all_chars (λ c, negb (Ascii.eqb c sep)) tok = true) tokens →
  Py.split sep (Py.join (String sep "") tokens) = tokens.
Proof.
  intros Hne Hall. induction Hall as [|tok tokens Htok Hall IH]; [done|].
  destruct tokens as [|tok' tokens].
  - simpl. by apply split_no_sep.
  - change (Py.join (String sep "") (tok :: tok' :: tokens))
      with (tok +:+ String sep (Py.join (String sep "") (tok' :: tokens))).
    rewrite split_app_sep by done. by rewrite IH.
Qed.

(** *** [re.split] on a token *)

Lemma re_split_scan_match (value : string) :
  Py.all_chars (λ c, negb (Ascii.eqb c Py.newline)) value = true →
  Py.re_split_scan true value = [value; ""].
Proof.
  induction value as [|c value IH]; [done|]. simpl.
  intros [Hc Hs]%andb_true_iff. apply negb_true_iff in Hc. rewrite Hc.
  by rewrite IH.
Qed.

Lemma re_split_token (key value : string) :
  Py.all_chars (λ c, negb (Py.isdigit c)) key = true →
  match value with String c _ => Py.isdigit c | EmptyString => false end = true →
  Py.all_chars (λ c, negb (Ascii.eqb c Py.newline)) value = true →
  Py.re_split (key +:+ value) = [key; value; ""].
Proof.
  intros Hkey Hdigit Hline. unfold Py.re_split.
  induction key as [|c key IH].
  - rewrite app_empty_l. destruct value as [|d value]; [done|].
    simpl in *. rewrite Hdigit.
    apply andb_true_iff in Hline as [_ Hline].
    by rewrite re_split_scan_match.
  - simpl in Hkey. apply andb_true_iff in Hkey as [Hc Hkey].
    apply negb_true_iff in Hc. rewrite app_String. simpl. rewrite Hc.
    by rewrite IH.
Qed.

(** *** Integers and their decimal text *)

Lemma string_of_uint_digits (u : Decimal.uint) :
  Py.all_chars Py.isdigit (NilEmpty.string_of_uint u) = true.
Proof. induction u; simpl; by rewrite ?IHu. Qed.

Lemma int_digits_uint_acc (u : Decimal.uint) (p : positive) (b : bool) :
  b = true ∨ u ≠ Decimal.Nil →
  Py.int_digits (Zpos p) b (NilEmpty.string_of_uint u)
  = Some (Zpos (Pos.of_uint_acc u p)).
Proof.
  revert p b. induction u as [|u IH|u IH|u IH|u IH|u IH|u IH|u IH|u IH|u IH|u IH];
    intros p b Hb;
    [ by destruct Hb as [->|?]
    | cbn [NilEmpty.string_of_uint Py.int_digits Pos.of_uint_acc];
      match goal with |- context [Py.isdigit ?c] =>
        change (Py.isdigit c) with true; cbv iota end;
      match goal with |- context [Py.digit_value ?c] =>
        let v := eval vm_compute in (Py.digit_value c) in
        change (Py.digit_value c) with v end;
      match goal with |- Py.int_digits ?acc _ _ = Some (Zpos (Pos.of_uint_acc _ ?q)) =>
        replace acc with (Zpos q) by lia end;
      apply IH; by left .. ].
Qed.

Lemma int_digits_uint (u : Decimal.uint) (b : bool) :
  b = true ∨ u ≠ Decimal.Nil →
  Py.int_digits 0 b (NilEmpty.string_of_uint u) = Some (Z.of_N (Pos.of_uint u)).
Proof.
  revert b. induction u as [|u IH|u IH|u IH|u IH|u IH|u IH|u IH|u IH|u IH|u IH];
    intros b Hb;
    [ by destruct Hb as [->|?]
    | cbn [NilEmpty.string_of_uint Py.int_digits Pos.of_uint];
      change (Py.isdigit "0") with true; cbv iota;
      change (10 * 0 + Py.digit_value "0") with 0; apply IH; by left
    | cbn [NilEmpty.string_of_uint Py.int_digits Pos.of_uint];
      match goal with |- context [Py.isdigit ?c] =>
        change (Py.isdigit c) with true; cbv iota end;
      match goal with |- context [Py.digit_value ?c] =>
        let v := eval vm_compute in (10 * 0 + Py.digit_value c) in
        change (10 * 0 + Py.digit_value c) with v end;
      cbn [Z.of_N]; apply int_digits_uint_acc; by left .. ].
Qed.

Lemma to_uint_not_nil (p : positive) : Pos.to_uint p ≠ Decimal.Nil.
Proof.
  intros Hnil. pose proof (DecimalPos.Unsigned.of_to p) as Hof.
  by rewrite Hnil in Hof.
Qed.

(** The decimal text of a natural number is its digits, and [int] reads
    it back. *)
Lemma str_int_digits (n : Z) :
  0 ≤ n → Py.all_chars Py.isdigit (Py.str_int n) = true ∧ Py.str_int n ≠ "".
Proof.
  intros Hn. unfold Py.str_int. destruct n as [|p|p]; [done| |lia].
  simpl. pose proof (to_uint_not_nil p) as Hnil.
  unfold NilZero.string_of_uint.
  destruct (Pos.to_uint p) as [|u|u|u|u|u|u|u|u|u|u] eqn:Hu; [done|..];
    (split; [apply string_of_uint_digits|done]).
Qed.

Lemma first_digit_not_sign (c : ascii) :
  Py.isdigit c = true →
  Py.isspace c = false ∧ c ≠ "+"%char ∧ c ≠ "-"%char ∧ c ≠ "_"%char
  ∧ c ≠ Py.newline ∧ c ≠ "n"%char.
Proof.
  destruct c as [[] [] [] [] [] [] [] []]; by vm_compute.
Qed.

Lemma rstrip_no_space (s : string) :
  Py.all_chars (λ c, negb (Py.isspace c)) s = true → Py.rstrip s = s.
Proof.
  induction s as [|c s IH]; [done|]. simpl.
  intros [Hc Hs]%andb_true_iff. apply negb_true_iff in Hc.
  rewrite IH, Hc by done. by destruct s.
Qed.

Lemma strip_digits (s : string) :
  Py.all_chars Py.isdigit s = true → Py.strip s = s.
Proof.
  intros Hs. unfold Py.strip.
  assert (Py.all_chars (λ c, negb (Py.isspace c)) s = true) as Hspace.
  { apply (all_chars_impl Py.isdigit); [|done].
    intros c Hc. apply negb_true_iff. by apply first_digit_not_sign. }
  destruct s as [|c s]; [done|]. simpl in Hs. apply andb_true_iff in Hs as [Hc _].
  simpl. destruct (first_digit_not_sign c Hc) as [-> _].
  by apply rstrip_no_space.
Qed.

Lemma int_of_str_str_int (n : Z) : 0 ≤ n → Py.int_of_str (Py.str_int n) = Ok n.
Proof.
  intros Hn. destruct (str_int_digits n Hn) as [Hdigits Hne].
  unfold Py.int_of_str. rewrite strip_digits by done.
  assert (Py.int_digits 0 false (Py.str_int n) = Some n) as Hparse.
  { unfold Py.str_int. destruct n as [|p|p]; [done| |lia]. simpl.
    pose proof (to_uint_not_nil p) as Hnil.
    change (Z.pos p) with (Z.of_N (N.pos p)).
    rewrite <- (DecimalPos.Unsigned.of_to p).
    replace (NilZero.string_of_uint (Pos.to_uint p))
      with (NilEmpty.string_of_uint (Pos.to_uint p))
      by by destruct (Pos.to_uint p).
    apply int_digits_uint. by right. }
  destruct (Py.str_int n) as [|c s]; [done|].
  simpl in Hdigits. apply andb_true_iff in Hdigits as [Hc _].
  destruct (first_digit_not_sign c Hc) as (_ & Hplus & Hminus & _).
  destruct c as [[] [] [] [] [] [] [] []]; try done; by rewrite Hparse.
Qed.

Lemma strides_digits (a b : Z) :
  0 ≤ a ≤ 9 → 0 ≤ b ≤ 9 →
  numeric_text (Py.str_int a +:+ Py.str_int b) = true
  ∧ Py.len (Py.str_int a +:+ Py.str_int b) = 2
  ∧ Py.char_at (Py.str_int a +:+ Py.str_int b) 0 ≫= Py.int_of_str = Ok a
  ∧ Py.char_at (Py.str_int a +:+ Py.str_int b) 1 ≫= Py.int_of_str = Ok b.
Proof.
  intros Ha Hb.
  assert (a = 0 ∨ a = 1 ∨ a = 2 ∨ a = 3 ∨ a = 4 ∨ a = 5 ∨ a = 6 ∨ a = 7
          ∨ a = 8 ∨ a = 9) as Ha' by lia.
  assert (b = 0 ∨ b = 1 ∨ b = 2 ∨ b = 3 ∨ b = 4 ∨ b = 5 ∨ b = 6 ∨ b = 7
          ∨ b = 8 ∨ b = 9) as Hb' by lia.
  clear Ha Hb.
  repeat destruct Ha' as [->|Ha']; try subst a;
    repeat destruct Hb' as [->|Hb']; try subst b; by vm_compute.
Qed.

(** *** Numeric texts as token values *)

Lemma numeric_char (c : ascii) :
  Py.isdigit c || Ascii.eqb c "." || Ascii.eqb c "e" || Ascii.eqb c "+"
  || Ascii.eqb c "-" = true →
  negb (Ascii.eqb c "_") = true ∧ negb (Ascii.eqb c Py.newline) = true
  ∧ negb (Ascii.eqb c "n") = true.
Proof. destruct c as [[] [] [] [] [] [] [] []]; by vm_compute. Qed.

Lemma numeric_text_inv (t : string) :
  numeric_text t = true →
  match t with String c _ => Py.isdigit c | EmptyString => false end = true
  ∧ Py.all_chars (λ c, negb (Ascii.eqb c "_")) t = true
  ∧ Py.all_chars (λ c, negb (Ascii.eqb c Py.newline)) t = true
  ∧ Py.all_chars (λ c, negb (Ascii.eqb c "n")) t = true.
Proof.
  unfold numeric_text. intros [Hfirst Hall]%andb_true_iff.
  split_and!; [done|..];
    (eapply all_chars_impl; [|exact Hall]); intros c Hc; by apply numeric_char.
Qed.

Lemma numeric_text_digits (t : string) :
  Py.all_chars Py.isdigit t = true → t ≠ "" → numeric_text t = true.
Proof.
  intros Hall Hne. unfold numeric_text. apply andb_true_iff. split.
  - destruct t as [|c t]; [done|]. simpl in Hall. by apply andb_true_iff in Hall as [? _].
  - eapply all_chars_impl; [|exact Hall]. by intros c ->.
Qed.

Lemma numeric_text_str_int (n : Z) : 0 ≤ n → numeric_text (Py.str_int n) = true.
Proof. intros Hn. apply numeric_text_digits; by apply str_int_digits. Qed.

(** ** The dictionary of options *)

(** [int(options[key])] raises [KeyError] for an absent key and
    [ValueError] for a value that is no integer literal. *)
Lemma int_option_cases (options : gmap string string) (key : string) :
  (options !! key = None ∧ int_option options key = Raise (KeyError key))
  ∨ (∃ v, options !! key = Some v
        ∧ (int_option options key = Raise (ValueError_int v)
           ∨ ∃ n, int_option options key = Ok n)).
Proof.
  unfold int_option, Py.getitem.
  destruct (options !! key) as [v|]; [right; exists v; split; [done|] | by left].
  simpl. unfold Py.int_of_str.
  match goal with |- context [match ?p with Some _ => _ | None => _ end] =>
    destruct p as [n|] end; eauto.
Qed.

Lemma int_option_absent (options : gmap string string) (key : string) :
  options !! key = None → int_option options key = Raise (KeyError key).
Proof. intros H. unfold int_option, Py.getitem. by rewrite H. Qed.

Lemma parse_options_snoc (ops : list string) (op : string) :
  parse_options (ops ++ [op])
  = match key_value (Py.re_split op) with
    | Some (key, value) => <[key := value]> (parse_options ops)
    | None => parse_options ops
    end.
Proof. unfold parse_options. by rewrite foldl_snoc. Qed.

(** Tokens that carry other keys leave the entry of [key] as it is. *)
Lemma parse_options_other_keys (ops post : list string) (key : string) :
  (∀ op value, op ∈ post → key_value (Py.re_split op) ≠ Some (key, value)) →
  parse_options (ops ++ post) !! key = parse_options ops !! key.
Proof.
  induction post as [|op post IH] using rev_ind; intros Hpost.
  - by rewrite app_nil_r.
  - rewrite app_assoc, parse_options_snoc.
    assert (parse_options (ops ++ post) !! key = parse_options ops !! key) as Hpre.
    { apply IH. intros op' value' Hin. apply Hpost, elem_of_app. by left. }
    destruct (key_value (Py.re_split op)) as [[key' value']|] eqn:Hop; [|done].
    rewrite lookup_insert_ne; [done|].
    intros ->. by apply (Hpost op value'); [apply elem_of_app; right; left|].
Qed.

(** The entry of a key is the value of the last token that carries it. *)
Lemma parse_options_last (pre post : list string) (op key value : string) :
  key_value (Py.re_split op) = Some (key, value) →
  (∀ op' value', op' ∈ post → key_value (Py.re_split op') ≠ Some (key, value')) →
  parse_options (pre ++ op :: post) !! key = Some value.
Proof.
  intros Hop Hpost.
  rewrite (cons_middle op pre post), app_assoc.
  rewrite parse_options_other_keys by done.
  by rewrite parse_options_snoc, Hop, lookup_insert_eq.
Qed.

(** The options of a string in the layout [_encode_block_string] writes. *)
Lemma options_of_tokens (vr vk vs ve vi vo : string) (vse : option string)
    (skip : bool) :
  numeric_text vr = true → numeric_text vk = true → numeric_text vs = true →
  numeric_text ve = true → numeric_text vi = true → numeric_text vo = true →
  (∀ v, vse = Some v → numeric_text v = true) →
  options_of (Py.join "_" (block_tokens vr vk vs ve vi vo vse skip))
  = let base : gmap string string :=
      <["o" := vo]> (<["i" := vi]> (<["e" := ve]>
        (<["s" := vs]> (<["k" := vk]> (<["r" := vr]> ∅))))) in
    match vse with
    | Some v => <["se" := v]> base
    | None => base
    end.
Proof.
  intros (Dr & Ur & Nr & _)%numeric_text_inv (Dk & Uk & Nk & _)%numeric_text_inv
         (Ds & Us & Ns & _)%numeric_text_inv (De & Ue & Ne & _)%numeric_text_inv
         (Di & Ui & Ni & _)%numeric_text_inv (Do & Uo & No & _)%numeric_text_inv
         Hse.
  assert (∀ v, vse = Some v →
               match v with String c _ => Py.isdigit c | EmptyString => false end = true
               ∧ Py.all_chars (λ c, negb (Ascii.eqb c "_")) v = true
               ∧ Py.all_chars (λ c, negb (Ascii.eqb c Py.newline)) v = true)
    as Hse'.
  { intros v Hv. destruct (numeric_text_inv v (Hse v Hv)) as (? & ? & ? & _). done. }
  unfold options_of, block_tokens. rewrite split_join; cycle 1.
  { done. }
  { rewrite !Forall_app. split_and!.
    - repeat constructor; rewrite all_chars_app; by apply andb_true_iff.
    - destruct vse as [v|]; [|done]. destruct (Hse' v eq_refl) as (_ & Uv & _).
      repeat constructor. rewrite all_chars_app. by apply andb_true_iff.
    - by destruct skip; repeat constructor. }
  unfold parse_options. rewrite !foldl_app. cbn [foldl].
  rewrite !re_split_token by done. cbn [key_value].
  destruct vse as [v|].
  - destruct (Hse' v eq_refl) as (Dv & _ & Nv). cbn [foldl].
    rewrite re_split_token by done. by destruct skip.
  - by destruct skip.
Qed.

(** The substring test on the layout [_encode_block_string] writes. *)
Lemma contains_noskip_tokens (vr vk vs ve vi vo : string) (vse : option string)
    (skip : bool) :
  numeric_text vr = true → numeric_text vk = true → numeric_text vs = true →
  numeric_text ve = true → numeric_text vi = true → numeric_text vo = true →
  (∀ v, vse = Some v → numeric_text v = true) →
  Py.contains "noskip" (Py.join "_" (block_tokens vr vk vs ve vi vo vse skip))
  = negb skip.
Proof.
  intros (_ & _ & _ & Nr)%numeric_text_inv (_ & _ & _ & Nk)%numeric_text_inv
         (_ & _ & _ & Ns)%numeric_text_inv (_ & _ & _ & Ne)%numeric_text_inv
         (_ & _ & _ & Ni)%numeric_text_inv (_ & _ & _ & No)%numeric_text_inv
         Hse.
  unfold block_tokens. destruct skip.
  - apply contains_without_n. apply all_chars_join; [done|].
    rewrite app_nil_r, Forall_app. split.
    + repeat constructor; rewrite all_chars_app; by apply andb_true_iff.
    + destruct vse as [v|]; [|done].
      destruct (numeric_text_inv v (Hse v eq_refl)) as (_ & _ & _ & Nv).
      repeat constructor. rewrite all_chars_app. by apply andb_true_iff.
  - rewrite app_assoc, join_snoc by done. by apply contains_app_r.
Qed.

(** ** [_decode_block_string] *)

Section CodecFacts.

Context `{FloatIO : Py.FloatText}.

(** A run of [_decode_block_string] that returns went through every
    conversion, in the order of the constructor's arguments. *)
Lemma decode_Ok_inv (block_string : string) (block : BlockArgs) :
  _decode_block_string block_string = Ok block →
  ∃ s, options_of block_string !! "s" = Some s ∧ Py.len s = 2
     ∧ int_option (options_of block_string) "k" = Ok (kernel_size block)
     ∧ int_option (options_of block_string) "r" = Ok (num_repeat block)
     ∧ int_option (options_of block_string) "i" = Ok (input_filters block)
     ∧ int_option (options_of block_string) "o" = Ok (output_filters block)
     ∧ int_option (options_of block_string) "e" = Ok (expand_ratio block)
     ∧ id_skip block = negb (Py.contains "noskip" block_string).
Proof.
  unfold _decode_block_string. intros H.
  destruct (options_of block_string !! "s") as [s|] eqn:Hs; [|done].
  destruct (Z.eqb_spec (Py.len s) 2) as [Hlen|]; [simpl in H|done].
  repeat (apply bind_Ok in H as (? & ? & H)).
  injection H as <-. by exists s.
Qed.

(** With a well-formed [s] entry, the first of [k], [r], [i], [o], [e]
    that is absent is the key the [KeyError] names, provided the values
    read before it are integer literals. *)
Lemma decode_first_absent (block_string s key : string) (before after : list string) :
  options_of block_string !! "s" = Some s → Py.len s = 2 →
  ["k"; "r"; "i"; "o"; "e"] = before ++ key :: after →
  (∀ k, k ∈ before → is_Ok (int_option (options_of block_string) k) = true) →
  options_of block_string !! key = None →
  _decode_block_string block_string = Raise (KeyError key).
Proof.
  intros Hs Hlen Hkeys Hbefore Hnone. unfold _decode_block_string.
  rewrite Hs, Hlen. simpl.
  repeat (destruct before as [|k0 before]; simplify_eq/=;
          [ rewrite (int_option_absent _ _ Hnone); reflexivity
          | match type of Hbefore with
            | ∀ k, k ∈ ?k1 :: _ → _ =>
                let H := fresh in
                pose proof (Hbefore k1 ltac:(left)) as H;
                destruct (int_option _ k1); [simpl; clear H | done];
                assert (∀ k, k ∈ before
                             → is_Ok (int_option (options_of block_string) k) = true)
                  as Hbefore' by (intros; apply Hbefore; by right);
                clear Hbefore; rename Hbefore' into Hbefore
            end ]).
  by destruct before.
Qed.

(** A string that lacks a required key is never decoded: the error is the
    strides error, a [KeyError] for an absent key, or the [ValueError] of a
    value that is no integer literal. *)
Lemma decode_absent_raises (block_string key : string) :
  key ∈ ["s"; "k"; "r"; "i"; "o"; "e"] →
  options_of block_string !! key = None →
  ∃ e, _decode_block_string block_string = Raise e
     ∧ (e = ValueError_strides
        ∨ (∃ k, k ∈ ["k"; "r"; "i"; "o"; "e"]
              ∧ options_of block_string !! k = None ∧ e = KeyError k)
        ∨ (∃ k v, k ∈ ["k"; "r"; "i"; "o"; "e"]
                ∧ options_of block_string !! k = Some v ∧ e = ValueError_int v)).
Proof.
  intros Hkey Hnone. unfold _decode_block_string.
  destruct (options_of block_string !! "s") as [s|] eqn:Hs; [|by eauto].
  destruct (Z.eqb_spec (Py.len s) 2) as [Hlen|Hlen]; [simpl|by eauto].
  apply elem_of_cons in Hkey as [->|Hkey]; [congruence|].
  repeat match goal with
  | |- context [int_option ?options ?k ≫= _] =>
      let Hk := fresh "Hk" in
      destruct (int_option_cases options k)
        as [[? Hk] | (? & ? & [Hk | [? Hk]])]; rewrite Hk; simpl;
      [ eexists; split; [done|]; right; left; eexists; split_and!; [|done|done];
        by repeat constructor
      | eexists; split; [done|]; right; right; do 2 eexists;
        split_and!; [|done|done]; by repeat constructor
      | ]
  end.
  repeat (apply elem_of_cons in Hkey as [->|Hkey]; [congruence|]).
  by apply elem_of_nil in Hkey.
Qed.

(** An [s] entry that does not have exactly two characters raises the
    strides error. *)
Lemma decode_strides_entry (block_string s : string) :
  options_of block_string !! "s" = Some s →
  Py.len s ≠ 2 →
  _decode_block_string block_string = Raise ValueError_strides.
Proof.
  intros Hs Hlen. unfold _decode_block_string. rewrite Hs.
  by destruct (Z.eqb_spec (Py.len s) 2).
Qed.

(** With a well-formed [s] entry, the error is that of the first of [k],
    [r], [i], [o], [e] whose conversion fails. *)
Lemma decode_first_failure (block_string s failing : string)
    (before after : list string) (e : exn) :
  options_of block_string !! "s" = Some s → Py.len s = 2 →
  ["k"; "r"; "i"; "o"; "e"] = before ++ failing :: after →
  (∀ k, k ∈ before → is_Ok (int_option (options_of block_string) k) = true) →
  int_option (options_of block_string) failing = Raise e →
  _decode_block_string block_string = Raise e.
Proof.
  intros Hs Hlen Hkeys Hbefore Hfail. unfold _decode_block_string.
  rewrite Hs, Hlen. simpl.
  repeat (destruct before as [|k0 before]; simplify_eq/=;
          [ rewrite Hfail; reflexivity
          | match type of Hbefore with
            | ∀ k, k ∈ ?k1 :: _ → _ =>
                let H := fresh in
                pose proof (Hbefore k1 ltac:(left)) as H;
                destruct (int_option _ k1); [simpl; clear H | done];
                assert (∀ k, k ∈ before
                             → is_Ok (int_option (options_of block_string) k) = true)
                  as Hbefore' by (intros; apply Hbefore; by right);
                clear Hbefore; rename Hbefore' into Hbefore
            end ]).
  by destruct before.
Qed.

(** When one of [k], [r], [i], [o], [e] is absent, some conversion fails,
    and there is a first one in that order. *)
Lemma first_failing_field (options : gmap string string) (key : string) :
  key ∈ ["k"; "r"; "i"; "o"; "e"] →
  options !! key = None →
  ∃ before failing after e,
    ["k"; "r"; "i"; "o"; "e"] = before ++ failing :: after
    ∧ (∀ k, k ∈ before → is_Ok (int_option options k) = true)
    ∧ int_option options failing = Raise e.
Proof.
  intros Hkey Hnone. pose proof (int_option_absent options key Hnone) as Habsent.
  destruct (int_option options "k") as [nk|ek] eqn:Hk;
    [|by exists [], "k", ["r"; "i"; "o"; "e"], ek; split_and!;
         [|intros ? ?%elem_of_nil|]].
  destruct (int_option options "r") as [nr|er] eqn:Hr;
    [|exists ["k"], "r", ["i"; "o"; "e"], er; split_and!; [done| |done];
      intros k ->%list_elem_of_singleton; by rewrite Hk].
  destruct (int_option options "i") as [ni|ei] eqn:Hi;
    [|exists ["k"; "r"], "i", ["o"; "e"], ei; split_and!; [done| |done];
      intros k Hin; repeat (apply elem_of_cons in Hin as [->|Hin]; [by rewrite ?Hk, ?Hr|]);
      by apply elem_of_nil in Hin].
  destruct (int_option options "o") as [no|eo] eqn:Ho;
    [|exists ["k"; "r"; "i"], "o", ["e"], eo; split_and!; [done| |done];
      intros k Hin;
      repeat (apply elem_of_cons in Hin as [->|Hin]; [by rewrite ?Hk, ?Hr, ?Hi|]);
      by apply elem_of_nil in Hin].
  destruct (int_option options "e") as [ne|ee] eqn:He;
    [|exists ["k"; "r"; "i"; "o"], "e", [], ee; split_and!; [done| |done];
      intros k Hin;
      repeat (apply elem_of_cons in Hin as [->|Hin];
              [by rewrite ?Hk, ?Hr, ?Hi, ?Ho|]);
      by apply elem_of_nil in Hin].
  repeat (apply elem_of_cons in Hkey as [->|Hkey]; [congruence|]).
  by apply elem_of_nil in Hkey.
Qed.

Lemma int_option_Raise (options : gmap string string) (key : string) (e : exn) :
  int_option options key = Raise e →
  match options !! key with
  | None => e = KeyError key
  | Some v => e = ValueError_int v
  end.
Proof.
  destruct (int_option_cases options key)
    as [[Hnone Hk] | (v & Hv & [Hk | [n Hk]])]; rewrite Hk; intros [= <-].
  - by rewrite Hnone.
  - by rewrite Hv.
Qed.

(** C3 (as amended): when one of the required keys [s], [k], [r], [i],
    [o], [e] is absent from the parsed options, [_decode_block_string]
    raises and returns no block.  The error is the strides error when [s]
    is absent or its value does not have two characters.  Otherwise it is
    the error of the first of [k], [r], [i], [o], [e], in this order, whose
    conversion fails: the [KeyError] naming the key when the key is absent,
    the [ValueError] of [int] for its value when the value is no integer
    literal.  So it is the [KeyError] naming the absent key when every key
    read before it holds an integer literal. *)
Theorem decode_missing_key (block_string key : string) :
  key ∈ ["s"; "k"; "r"; "i"; "o"; "e"] →
  options_of block_string !! key = None →
  ∃ e, _decode_block_string block_string = Raise e
     ∧ (options_of block_string !! "s" = None → e = ValueError_strides)
     ∧ (∀ s, options_of block_string !! "s" = Some s → Py.len s ≠ 2 →
             e = ValueError_strides)
     ∧ (∀ s, options_of block_string !! "s" = Some s → Py.len s = 2 →
          ∃ before failing after,
            ["k"; "r"; "i"; "o"; "e"] = before ++ failing :: after
            ∧ (∀ k, k ∈ before
                    → is_Ok (int_option (options_of block_string) k) = true)
            ∧ int_option (options_of block_string) failing = Raise e
            ∧ match options_of block_string !! failing with
              | None => e = KeyError failing
              | Some v => e = ValueError_int v
              end)
     ∧ (∀ s before after,
          options_of block_string !! "s" = Some s → Py.len s = 2 →
          ["k"; "r"; "i"; "o"; "e"] = before ++ key :: after →
          (∀ k, k ∈ before
                → is_Ok (int_option (options_of block_string) k) = true) →
          e = KeyError key).
Proof.
  intros Hkey Hnone.
  destruct (decode_absent_raises block_string key Hkey Hnone) as (e & He & _).
  exists e. split_and!; [done|..].
  - intros Hs. revert He. unfold _decode_block_string. rewrite Hs. congruence.
  - intros s Hs Hlen. rewrite (decode_strides_entry _ _ Hs Hlen) in He. congruence.
  - intros s Hs Hlen.
    assert (key ∈ ["k"; "r"; "i"; "o"; "e"]) as Hkey'.
    { apply elem_of_cons in Hkey as [->|Hkey]; [congruence|done]. }
    destruct (first_failing_field _ key Hkey' Hnone)
      as (before & failing & after & e' & Hkeys & Hbefore & Hfail).
    rewrite (decode_first_failure _ _ _ _ _ _ Hs Hlen Hkeys Hbefore Hfail) in He.
    injection He as <-. exists before, failing, after.
    split_and!; [done|done|done|]. by apply int_option_Raise.
  - intros s before after Hs Hlen Hkeys Hbefore.
    rewrite (decode_first_absent _ _ _ _ _ Hs Hlen Hkeys Hbefore Hnone) in He.
    congruence.
Qed.

(** C4 (as amended): the value of the [s] entry is what the last token
    with the key [s] carries from its first digit up to the end of the
    token or its first newline.  When this value does not have exactly two
    characters, [_decode_block_string] raises the [ValueError] saying that
    the strides should be a pair of integers. *)
Theorem decode_strides_length (block_string : string) (pre post : list string)
    (op value : string) :
  Py.split "_" block_string = pre ++ op :: post →
  key_value (Py.re_split op) = Some ("s", value) →
  (∀ op' value', op' ∈ post
                 → key_value (Py.re_split op') ≠ Some ("s", value')) →
  Py.len value ≠ 2 →
  _decode_block_string block_string = Raise ValueError_strides.
Proof.
  intros Hsplit Hop Hpost Hlen.
  apply (decode_strides_entry block_string value); [|done].
  unfold options_of. rewrite Hsplit. by apply parse_options_last.
Qed.

(** C5: a decoded block has [id_skip] false exactly when the text
    [noskip] occurs somewhere in the block string, between any two texts,
    and has it true otherwise. *)
Theorem decode_id_skip_iff_noskip (block_string : string) (block : BlockArgs) :
  _decode_block_string block_string = Ok block →
  (id_skip block = false
   ↔ ∃ pre post, block_string = pre +:+ "noskip" +:+ post)
  ∧ (id_skip block = true
     ↔ ¬ ∃ pre post, block_string = pre +:+ "noskip" +:+ post).
Proof.
  intros (s & _ & _ & _ & _ & _ & _ & _ & Hskip)%decode_Ok_inv.
  rewrite Hskip, <- contains_iff.
  by destruct (Py.contains "noskip" block_string); simpl; split; split.
Qed.

End CodecFacts.

(** ** [_replace] and the overrides *)

Lemma elem_of_unexpected_names (kwds : gmap string Py.value) (name : string) :
  name ∈ unexpected_names kwds ↔ is_Some (kwds !! name) ∧ name ∉ _fields.
Proof.
  unfold unexpected_names. rewrite list_elem_of_filter, list_elem_of_fmap.
  split.
  - intros [Hnot ([name' v] & -> & Hin)]. split; [|done].
    apply elem_of_map_to_list in Hin. by exists v.
  - intros [[v Hv] Hnot]. split; [done|].
    exists (name, v). split; [done|]. by apply elem_of_map_to_list.
Qed.

Local Ltac case_field name :=
  match goal with
  | |- context [String.eqb name ?field] =>
      destruct (String.eqb_spec name field) as [->|?]
  end.

Lemma unexpected_names_nil (kwds : gmap string Py.value) :
  (∀ name, is_Some (kwds !! name) → name ∈ _fields) →
  unexpected_names kwds = [].
Proof.
  intros Hknown. apply elem_of_nil_inv. intros name.
  rewrite elem_of_unexpected_names. intros [Hsome Hnot]. auto.
Qed.

(** C7: when every key of the override mapping names a field,
    [apply_overrides] returns a record in which each overridden field holds
    the mapping's value and every other field holds the value it has in
    [global_params].  The result is a new value: records are immutable in
    the embedding, as named tuples are in Python, so [global_params] itself
    stays as it was. *)
Theorem replace_known_fields (global_params : GlobalParams)
    (kwds : gmap string Py.value) :
  (∀ name, is_Some (kwds !! name) → name ∈ _fields) →
  ∃ result, apply_overrides global_params (Some kwds) = Ok result
    ∧ ∀ name, getattr result name
              = match kwds !! name with
                | Some v => Some v
                | None => getattr global_params name
                end.
Proof.
  intros Hknown. unfold apply_overrides. case_bool_decide as Hempty.
  { exists global_params. split; [done|]. intros name. by rewrite Hempty, lookup_empty. }
  unfold _replace. rewrite (unexpected_names_nil _ Hknown).
  eexists. split; [done|]. intros name. unfold getattr.
  repeat (case_field name; [simpl; by destruct (kwds !! _)|]).
  destruct (kwds !! name) as [v|] eqn:Hv; [|done].
  assert (name ∈ _fields) as Hin by eauto.
  unfold _fields in Hin.
  repeat (apply elem_of_cons in Hin as [->|Hin]; [done|]).
  by apply elem_of_nil in Hin.
Qed.

(** C8: when the override mapping holds a key that names no field,
    [apply_overrides] raises the [ValueError] of [_replace]; the error lists
    exactly the keys that name no field, the offending one among them, and
    no record is returned. *)
Theorem replace_unknown_field (global_params : GlobalParams)
    (kwds : gmap string Py.value) (name : string) :
  is_Some (kwds !! name) → name ∉ _fields →
  ∃ names, apply_overrides global_params (Some kwds)
           = Raise (ValueError_fields names)
    ∧ name ∈ names
    ∧ ∀ n, n ∈ names ↔ is_Some (kwds !! n) ∧ n ∉ _fields.
Proof.
  intros Hsome Hnot. unfold apply_overrides. case_bool_decide as Hempty.
  { rewrite Hempty, lookup_empty in Hsome. by destruct Hsome. }
  unfold _replace.
  assert (name ∈ unexpected_names kwds) as Hin
    by by apply elem_of_unexpected_names.
  destruct (unexpected_names kwds) as [|n names] eqn:Hnames.
  { by apply elem_of_nil in Hin. }
  exists (n :: names). split_and!; [done|done|].
  intros n'. rewrite <- Hnames. apply elem_of_unexpected_names.
Qed.

(** ** [_encode_block_string] and the round trip *)

Section Encoding.

Context `{FloatIO : Py.FloatText}.

(** C2: the block that ["r4_k3_s22_e1_i16_o24"] decodes to has no
    [se_ratio]; [_encode_block_string] raises [TypeError] on it and
    returns no string. *)
Theorem encode_block_without_se_ratio :
  ∃ block,
    _decode_block_string "r4_k3_s22_e1_i16_o24" = Ok block
    ∧ se_ratio block = None
    ∧ _encode_block_string block
      = Raise (TypeError "'>' not supported between instances of 'NoneType' and 'int'").
Proof. eexists. split; [by vm_compute|]. by split. Qed.

(** C1: a block that meets the invariants and has no [se_ratio] is not
    encoded, so the round trip raises [TypeError] and does not give the
    block back. *)
Theorem round_trip_without_se_ratio :
  let block := {| kernel_size := 3; num_repeat := 4; input_filters := 16;
                  output_filters := 24; expand_ratio := 1; id_skip := true;
                  se_ratio := None; strides := [2; 2] |} in
  valid_block block = true
  ∧ round_trip block
    = Raise (TypeError "'>' not supported between instances of 'NoneType' and 'int'").
Proof. by split. Qed.

(** C6: the blocks of the preset meet the invariants and have no
    [se_ratio]; [encode] raises [TypeError] on the first of them, so
    decoding the encoded sequence gives no sequence. *)
Theorem encode_preset_blocks :
  ∃ blocks_args global_params,
    mnasnet_backbone 5 3 = Ok (blocks_args, global_params)
    ∧ forallb valid_block blocks_args = true
    ∧ encode blocks_args ≫= decode
      = Raise (TypeError "'>' not supported between instances of 'NoneType' and 'int'").
Proof. do 2 eexists. split; [by vm_compute|]. by split. Qed.

(** X2: for a block with [strides] and an [se_ratio], the tokens come
    in the order [r], [k], [s], [e], [i], [o]; the [se] token follows
    exactly when [0 < se_ratio <= 1], and [noskip] comes last exactly when
    [id_skip] is false; the tokens are joined by [_]. *)
Theorem encode_with_se_ratio (block : BlockArgs) (stride0 stride1 : Z)
    (rest : list Z) (x : float) :
  strides block = stride0 :: stride1 :: rest →
  se_ratio block = Some x →
  _encode_block_string block
  = Ok (Py.join "_"
          ([ "r" +:+ Py.str_int (num_repeat block);
             "k" +:+ Py.str_int (kernel_size block);
             "s" +:+ Py.str_int stride0 +:+ Py.str_int stride1;
             "e" +:+ Py.str_int (expand_ratio block);
             "i" +:+ Py.str_int (input_filters block);
             "o" +:+ Py.str_int (output_filters block) ]
           ++ (if PrimFloat.ltb 0 x && PrimFloat.leb x 1
               then ["se" +:+ Py.str_float x] else [])
           ++ (if id_skip block then [] else ["noskip"]))).
Proof.
  intros Hstrides Hse. unfold _encode_block_string.
  rewrite Hstrides, Hse. simpl.
  destruct (PrimFloat.ltb 0 x && PrimFloat.leb x 1), (id_skip block); reflexivity.
Qed.

Lemma encode_in_range (block : BlockArgs) (stride0 stride1 : Z) (x : float) :
  strides block = [stride0; stride1] →
  se_ratio block = Some x →
  PrimFloat.ltb 0 x && PrimFloat.leb x 1 = true →
  _encode_block_string block
  = Ok (Py.join "_"
          (block_tokens (Py.str_int (num_repeat block))
             (Py.str_int (kernel_size block))
             (Py.str_int stride0 +:+ Py.str_int stride1)
             (Py.str_int (expand_ratio block))
             (Py.str_int (input_filters block))
             (Py.str_int (output_filters block))
             (Some (Py.str_float x)) (id_skip block))).
Proof.
  intros Hstrides Hse Hrange. unfold _encode_block_string, block_tokens.
  rewrite Hstrides, Hse, Hrange. simpl. by destruct (id_skip block).
Qed.

(** X1: a block that meets the invariants and has an [se_ratio] whose
    text is numeric and reads back as the same float is decoded from its
    encoding exactly. *)
Theorem round_trip_with_se_ratio (block : BlockArgs) (x : float) :
  valid_block block = true →
  se_ratio block = Some x →
  numeric_text (Py.str_float x) = true →
  Py.float_of_str (Py.str_float x) = Some x →
  round_trip block = Ok block.
Proof.
  intros Hvalid Hse Htext Hfloat. unfold valid_block in Hvalid.
  rewrite Hse in Hvalid.
  destruct block as [k r i o e skip se st]. simpl in *. subst se.
  destruct st as [|a [|b [|? ?]]];
    try (by rewrite ?andb_false_r in Hvalid).
  repeat (apply andb_true_iff in Hvalid as [Hvalid ?]).
  repeat match goal with
         | H : (_ <? _) = true |- _ => apply Z.ltb_lt in H
         | H : (_ <=? _) = true |- _ => apply Z.leb_le in H
         end.
  destruct (strides_digits a b) as (Hs & Hlen & Hs0 & Hs1); [lia..|].
  pose proof (numeric_text_str_int r ltac:(lia)) as Hr.
  pose proof (numeric_text_str_int k ltac:(lia)) as Hk.
  pose proof (numeric_text_str_int e ltac:(lia)) as He.
  pose proof (numeric_text_str_int i ltac:(lia)) as Hi.
  pose proof (numeric_text_str_int o ltac:(lia)) as Ho.
  unfold round_trip. erewrite encode_in_range by done.
  cbn [num_repeat kernel_size expand_ratio input_filters output_filters id_skip].
  change (Ok ?s ≫= _decode_block_string) with (_decode_block_string s).
  unfold _decode_block_string.
  rewrite options_of_tokens, contains_noskip_tokens by (done || by intros ? [= <-]).
  unfold int_option, Py.getitem. simplify_map_eq.
  rewrite Hlen, !int_of_str_str_int, Hs0, Hs1 by lia.
  simpl. by rewrite negb_involutive.
Qed.

(** ** [decode] and [encode] *)

Lemma decode_Ok_iff (string_list : list string) (blocks_args : list BlockArgs) :
  decode string_list = Ok blocks_args
  ↔ Forall2 (λ block_string block, _decode_block_string block_string = Ok block)
      string_list blocks_args.
Proof.
  revert blocks_args. induction string_list as [|s rest IH]; intros blocks.
  - split; [intros [= <-]; constructor | by inversion 1].
  - cbn [decode]. split.
    + intros (b & Hs & (bs & Hrest & [= <-])%bind_Ok)%bind_Ok.
      constructor; [done|]. by apply IH.
    + intros (b & bs & Hs & Hrest & ->)%Forall2_cons_inv_l.
      apply bind_Ok. exists b. split; [done|].
      apply bind_Ok. exists bs. split; [by apply IH|done].
Qed.

Lemma decode_Raise_iff (string_list : list string) (e : exn) :
  decode string_list = Raise e
  ↔ ∃ pre bad post blocks_args,
      string_list = pre ++ bad :: post
      ∧ Forall2 (λ block_string block, _decode_block_string block_string = Ok block)
          pre blocks_args
      ∧ _decode_block_string bad = Raise e.
Proof.
  induction string_list as [|s rest IH].
  - split; [done|]. by intros ([|? ?] & ? & ? & ? & ? & _).
  - cbn [decode]. split.
    + intros [Hs | (b & Hs & [Hrest | (bs & _ & [=])]%bind_Raise)]%bind_Raise.
      * exists [], s, rest, []. by split_and!.
      * apply IH in Hrest as (pre & bad & post & blocks & -> & Hpre & Hbad).
        exists (s :: pre), bad, post, (b :: blocks).
        split_and!; [done| by constructor |done].
    + intros ([|s' pre] & bad & post & blocks & Heq & Hpre & Hbad);
        simplify_eq/=; apply bind_Raise; [by left|].
      apply Forall2_cons_inv_l in Hpre as (b & blocks' & Hs & Hpre & ->).
      right. exists b. split; [done|]. apply bind_Raise. left.
      apply IH. eauto 10.
Qed.

(** X3: [decode] returns the blocks of its strings, one by one and in
    order, exactly when every string decodes; it raises [e] exactly when
    some string raises [e] and every string before it decodes, and then
    no list is returned. *)
Theorem decode_elementwise (string_list : list string) :
  (∀ blocks_args,
     decode string_list = Ok blocks_args
     ↔ Forall2 (λ block_string block, _decode_block_string block_string = Ok block)
         string_list blocks_args)
  ∧ (∀ e,
       decode string_list = Raise e
       ↔ ∃ pre bad post blocks_args,
           string_list = pre ++ bad :: post
           ∧ Forall2 (λ block_string block,
                        _decode_block_string block_string = Ok block)
               pre blocks_args
           ∧ _decode_block_string bad = Raise e).
Proof. split; [apply decode_Ok_iff | apply decode_Raise_iff]. Qed.

Lemma encode_decode_cons (block : BlockArgs) (rest : list BlockArgs) :
  round_trip block = Ok block →
  encode rest ≫= decode = Ok rest →
  encode (block :: rest) ≫= decode = Ok (block :: rest).
Proof.
  unfold round_trip. simpl.
  destruct (_encode_block_string block) as [s|]; [simpl|done]. intros Hs.
  destruct (encode rest) as [ss|]; [simpl|done]. intros Hss.
  by rewrite Hs, Hss.
Qed.

(** X4: a sequence whose blocks are each decoded from their encoding is
    decoded from its encoding as a whole: same length, same order. *)
Theorem decode_encode_sequence (blocks_args : list BlockArgs) :
  Forall (λ block, round_trip block = Ok block) blocks_args →
  encode blocks_args ≫= decode = Ok blocks_args.
Proof.
  induction 1 as [|block rest Hblock _ IH]; [done|].
  by apply encode_decode_cons.
Qed.

End Encoding.

(** ** The preset *)

Section Preset.

Context `{FloatIO : Py.FloatText}.

(** C9: building ["mnasnet-backbone"] with [kernel = "5"] and
    [expratio = "3"] (the one dictionary [override_params] carries both the
    build parameters and the overrides) gives seven blocks; the second to
    the sixth have kernel size 5 and expansion ratio 3, the first and the
    seventh have kernel size 3 and no skip connection, and the seventh has
    expansion ratio 6. *)
Theorem backbone_kernel5_expratio3 :
  ∃ blocks_args global_params,
    build_mnasnet_model "mnasnet-backbone"
      (Some (<["kernel" := Py.Str "5"]> (<["expratio" := Py.Str "3"]> ∅)))
    = Ok (blocks_args, global_params)
    ∧ length blocks_args = 7%nat
    ∧ (λ block, (kernel_size block, expand_ratio block, id_skip block))
        <$> blocks_args
      = [ (3, 1, false); (5, 3, true); (5, 3, true); (5, 3, true);
          (5, 3, true); (5, 3, true); (3, 6, false) ].
Proof. do 2 eexists. split; [by vm_compute|]. by split. Qed.

(** A string in the layout of [block_tokens], without an [se] token and
    with integer values, decodes to the block of those values. *)
Lemma decode_block_tokens (r k a b e i o : Z) (skip : bool) :
  0 ≤ r → 0 ≤ k → 0 ≤ a ≤ 9 → 0 ≤ b ≤ 9 → 0 ≤ e → 0 ≤ i → 0 ≤ o →
  _decode_block_string
    (Py.join "_" (block_tokens (Py.str_int r) (Py.str_int k)
                    (Py.str_int a +:+ Py.str_int b) (Py.str_int e)
                    (Py.str_int i) (Py.str_int o) None skip))
  = Ok {| kernel_size := k; num_repeat := r; input_filters := i;
          output_filters := o; expand_ratio := e; id_skip := skip;
          se_ratio := None; strides := [a; b] |}.
Proof.
  intros Hr Hk Ha Hb He Hi Ho.
  destruct (strides_digits a b) as (Hs & Hlen & Hs0 & Hs1); [lia..|].
  unfold _decode_block_string.
  rewrite options_of_tokens, contains_noskip_tokens
    by (done || by apply numeric_text_str_int).
  unfold int_option, Py.getitem. simplify_map_eq.
  rewrite Hlen, !int_of_str_str_int, Hs0, Hs1 by lia.
  simpl. by rewrite negb_involutive.
Qed.

Local Ltac decode_head lem :=
  match goal with
  | |- context [_decode_block_string ?s ≫= ?rest] =>
      let H := fresh in
      assert (H := lem);
      repeat (specialize (H ltac:(lia)));
      match type of H with
      | _ = Ok ?block =>
          change (_decode_block_string s = Ok block) in H;
          rewrite H; clear H; change (Ok block ≫= rest) with (rest block);
          cbv beta
      end
  end.

(** X5: for a kernel size and an expansion ratio that are natural
    numbers, the preset has seven blocks; the second to the sixth carry the
    given kernel size and expansion ratio, the first and the last are fixed. *)
Theorem mnasnet_backbone_blocks (k e : Z) :
  0 ≤ k → 0 ≤ e →
  ∃ global_params,
    mnasnet_backbone k e
    = Ok ([ {| kernel_size := 3; num_repeat := 1; input_filters := 32;
               output_filters := 16; expand_ratio := 1; id_skip := false;
               se_ratio := None; strides := [1; 1] |};
            {| kernel_size := k; num_repeat := 4; input_filters := 16;
               output_filters := 24; expand_ratio := e; id_skip := true;
               se_ratio := None; strides := [2; 2] |};
            {| kernel_size := k; num_repeat := 4; input_filters := 24;
               output_filters := 40; expand_ratio := e; id_skip := true;
               se_ratio := None; strides := [2; 2] |};
            {| kernel_size := k; num_repeat := 4; input_filters := 40;
               output_filters := 80; expand_ratio := e; id_skip := true;
               se_ratio := None; strides := [2; 2] |};
            {| kernel_size := k; num_repeat := 4; input_filters := 80;
               output_filters := 96; expand_ratio := e; id_skip := true;
               se_ratio := None; strides := [1; 1] |};
            {| kernel_size := k; num_repeat := 4; input_filters := 96;
               output_filters := 192; expand_ratio := e; id_skip := true;
               se_ratio := None; strides := [2; 2] |};
            {| kernel_size := 3; num_repeat := 1; input_filters := 192;
               output_filters := 320; expand_ratio := 6; id_skip := false;
               se_ratio := None; strides := [1; 1] |} ],
          global_params).
Proof.
  intros Hk He. eexists. unfold mnasnet_backbone.
  assert (∀ a b i o : Z,
            0 ≤ a ≤ 9 → 0 ≤ b ≤ 9 → 0 ≤ i → 0 ≤ o →
            _decode_block_string
              ("r4_k" +:+ Py.str_int k +:+ "_s" +:+ Py.str_int a +:+ Py.str_int b
               +:+ "_e" +:+ Py.str_int e +:+ "_i" +:+ Py.str_int i
               +:+ "_o" +:+ Py.str_int o)
            = Ok {| kernel_size := k; num_repeat := 4; input_filters := i;
                    output_filters := o; expand_ratio := e; id_skip := true;
                    se_ratio := None; strides := [a; b] |}) as Hstage.
  { intros a b i o Ha Hb Hi Ho.
    rewrite <- (decode_block_tokens 4 k a b e i o true) by lia.
    f_equal. unfold block_tokens, Py.join. cbn [app String.concat].
    change (Py.str_int 4) with "4".
    by rewrite !append_assoc. }
  cbn [decode].
  decode_head (decode_block_tokens 1 3 1 1 1 32 16 false).
  decode_head (Hstage 2 2 16 24). decode_head (Hstage 2 2 24 40).
  decode_head (Hstage 2 2 40 80). decode_head (Hstage 1 1 80 96).
  decode_head (Hstage 2 2 96 192).
  decode_head (decode_block_tokens 1 3 1 1 6 192 320 false).
  reflexivity.
Qed.

(** X6: a model name other than ["mnasnet-backbone"] raises
    [NotImplementedError] carrying the name, whatever the overrides. *)
Theorem build_unknown_model_name (model_name : string)
    (override_params : option (gmap string Py.value)) :
  model_name ≠ "mnasnet-backbone" →
  build_mnasnet_model model_name override_params
  = Raise (NotImplementedError model_name).
Proof.
  intros Hname. unfold build_mnasnet_model.
  by destruct (String.eqb_spec model_name "mnasnet-backbone").
Qed.

End Preset.

(** ** What a decoded block looks like *)

(** *** What [re.split] gives as key and value *)

Lemma re_split_scan_not_nil (in_match : bool) (s : string) :
  Py.re_split_scan in_match s ≠ [].
Proof.
  destruct s as [|c s]; destruct in_match; simpl; try done.
  - by destruct (Ascii.eqb c Py.newline), (Py.re_split_scan _ s).
  - by destruct (Py.isdigit c), (Py.re_split_scan _ s).
Qed.

Lemma push_char_cons_inv (c : ascii) (pieces : list string) (p : string)
    (ps : list string) :
  pieces ≠ [] → Py.push_char c pieces = p :: ps →
  ∃ p', p = String c p' ∧ pieces = p' :: ps.
Proof. destruct pieces as [|p' ps']; [done|]. intros _ [= <- <-]. eauto. Qed.

(** The value of a token begins with a digit, and its key holds none. *)
Lemma key_value_inv (op key value : string) :
  key_value (Py.re_split op) = Some (key, value) →
  starts_with_digit value = true
  ∧ Py.all_chars (λ c, negb (Py.isdigit c)) key = true.
Proof.
  unfold Py.re_split. revert key.
  induction op as [|c op IH]; intros key; [done|]. cbn [Py.re_split_scan].
  destruct (Py.isdigit c) eqn:Hc.
  - pose proof (re_split_scan_not_nil true op) as Hne.
    destruct (Py.re_split_scan true op) as [|p ps]; [done|].
    by intros [= <- <-].
  - pose proof (re_split_scan_not_nil false op) as Hne.
    destruct (Py.re_split_scan false op) as [|p ps] eqn:Hscan; [done|].
    simpl. destruct ps as [|value' ps]; [done|]. intros [= <- <-].
    destruct (IH p eq_refl) as [Hvalue Hkey]. split; [done|].
    simpl. by rewrite Hc, Hkey.
Qed.

Lemma parse_options_values (ops : list string) (key value : string) :
  parse_options ops !! key = Some value →
  starts_with_digit value = true
  ∧ Py.all_chars (λ c, negb (Py.isdigit c)) key = true.
Proof.
  induction ops as [|op ops IH] using rev_ind.
  - unfold parse_options. simpl. by rewrite lookup_empty.
  - rewrite parse_options_snoc.
    destruct (key_value (Py.re_split op)) as [[key' value']|] eqn:Hop; [|done].
    destruct (decide (key' = key)) as [->|Hne].
    + rewrite lookup_insert_eq. intros [= ->]. by eapply key_value_inv.
    + by rewrite lookup_insert_ne.
Qed.

(** *** [int] on a text that begins with a digit *)

Lemma digit_value_bounds (c : ascii) :
  Py.isdigit c = true → 0 ≤ Py.digit_value c ≤ 9.
Proof.
  unfold Py.isdigit, Py.digit_value.
  intros [?%N.leb_le ?%N.leb_le]%andb_true_iff. lia.
Qed.

Lemma int_digits_nonneg (s : string) (acc n : Z) (b : bool) :
  0 ≤ acc → Py.int_digits acc b s = Some n → 0 ≤ n.
Proof.
  revert acc b. induction s as [|c s IH]; intros acc b Hacc; simpl.
  - destruct b; [|done]. by intros [= <-].
  - destruct (Py.isdigit c) eqn:Hc.
    + apply IH. pose proof (digit_value_bounds c Hc). lia.
    + destruct (Ascii.eqb c "_" && b); [|done]. by apply IH.
Qed.

Lemma strip_starts_with_digit (s : string) :
  starts_with_digit s = true → starts_with_digit (Py.strip s) = true.
Proof.
  destruct s as [|c s]; [done|]. simpl. intros Hc. unfold Py.strip.
  destruct (first_digit_not_sign c Hc) as [Hspace _].
  simpl. rewrite Hspace. simpl. rewrite Hspace.
  by destruct (Py.rstrip s).
Qed.

Lemma int_of_str_nonneg (s : string) (n : Z) :
  starts_with_digit s = true → Py.int_of_str s = Ok n → 0 ≤ n.
Proof.
  intros Hs%strip_starts_with_digit. unfold Py.int_of_str.
  destruct (Py.strip s) as [|c t]; [done|]. simpl in Hs.
  destruct (first_digit_not_sign c Hs) as (_ & Hplus & Hminus & _).
  assert (match Py.int_digits 0 false (String c t) with
          | Some n' => Ok n' | None => Raise (ValueError_int s) end = Ok n
          → 0 ≤ n) as Hmain.
  { destruct (Py.int_digits 0 false (String c t)) as [n'|] eqn:Hd; [|done].
    intros [= <-]. by eapply int_digits_nonneg. }
  destruct c as [[] [] [] [] [] [] [] []]; try done.
Qed.

Lemma int_of_char_bounds (c : ascii) (n : Z) :
  Py.int_of_str (String c "") = Ok n → 0 ≤ n ≤ 9.
Proof.
  destruct c as [[] [] [] [] [] [] [] []]; intros H; vm_compute in H;
    try discriminate H; injection H as <-; lia.
Qed.

Section DecodedBlocks.

Context `{FloatIO : Py.FloatText}.

(** Every step of a run of [_decode_block_string] that returns. *)
Lemma decode_Ok_steps (block_string : string) (block : BlockArgs) :
  _decode_block_string block_string = Ok block →
  ∃ s stride0 stride1,
    options_of block_string !! "s" = Some s ∧ Py.len s = 2
    ∧ int_option (options_of block_string) "k" = Ok (kernel_size block)
    ∧ int_option (options_of block_string) "r" = Ok (num_repeat block)
    ∧ int_option (options_of block_string) "i" = Ok (input_filters block)
    ∧ int_option (options_of block_string) "o" = Ok (output_filters block)
    ∧ int_option (options_of block_string) "e" = Ok (expand_ratio block)
    ∧ id_skip block = negb (Py.contains "noskip" block_string)
    ∧ match options_of block_string !! "se" with
      | Some v => ∃ x, Py.float_of_str v = Some x ∧ se_ratio block = Some x
      | None => se_ratio block = None
      end
    ∧ Py.char_at s 0 ≫= Py.int_of_str = Ok stride0
    ∧ Py.char_at s 1 ≫= Py.int_of_str = Ok stride1
    ∧ strides block = [stride0; stride1].
Proof.
  unfold _decode_block_string. intros H.
  destruct (options_of block_string !! "s") as [s|] eqn:Hs; [|done].
  destruct (Z.eqb_spec (Py.len s) 2) as [Hlen|]; [simpl in H|done].
  apply bind_Ok in H as (k & Hk & H). apply bind_Ok in H as (r & Hr & H).
  apply bind_Ok in H as (i & Hi & H). apply bind_Ok in H as (o & Ho & H).
  apply bind_Ok in H as (e & He & H). apply bind_Ok in H as (se & Hse & H).
  apply bind_Ok in H as (s' & Hs' & H).
  apply bind_Ok in H as (a & Ha & H). apply bind_Ok in H as (b & Hb & H).
  injection H as <-. unfold Py.getitem in Hs'. rewrite Hs in Hs'.
  injection Hs' as <-.
  exists s, a, b. split_and!; try done. simpl.
  destruct (options_of block_string !! "se") as [v|]; [|by injection Hse as <-].
  destruct (Py.float_of_str v) as [x|]; [|done]. injection Hse as <-. eauto.
Qed.

Lemma int_option_nonneg (block_string key : string) (n : Z) :
  int_option (options_of block_string) key = Ok n → 0 ≤ n.
Proof.
  unfold int_option, Py.getitem.
  destruct (options_of block_string !! key) as [v|] eqn:Hv; [simpl|done].
  apply int_of_str_nonneg.
  by apply (parse_options_values (Py.split "_" block_string) key).
Qed.

Lemma char_at_int_bounds (s : string) (i : nat) (n : Z) :
  Py.char_at s i ≫= Py.int_of_str = Ok n → 0 ≤ n ≤ 9.
Proof.
  unfold Py.char_at. destruct (String.get i s) as [c|]; [simpl|done].
  apply int_of_char_bounds.
Qed.

(** X7: a block that [_decode_block_string] returns has no negative
    count (a value starts at the first digit of its token, so no sign
    reaches [int]), its [strides] are exactly two integers from 0 to 9, and
    it has no [se_ratio] exactly when the options have no [se] entry. *)
Theorem decode_block_ranges (block_string : string) (block : BlockArgs) :
  _decode_block_string block_string = Ok block →
  0 ≤ kernel_size block ∧ 0 ≤ num_repeat block ∧ 0 ≤ input_filters block
  ∧ 0 ≤ output_filters block ∧ 0 ≤ expand_ratio block
  ∧ (∃ stride0 stride1,
       strides block = [stride0; stride1]
       ∧ 0 ≤ stride0 ≤ 9 ∧ 0 ≤ stride1 ≤ 9)
  ∧ (se_ratio block = None ↔ options_of block_string !! "se" = None).
Proof.
  intros (s & a & b & Hs & Hlen & Hk & Hr & Hi & Ho & He & _ & Hse & Ha & Hb
          & Hstrides)%decode_Ok_steps.
  split_and!; try by eapply int_option_nonneg.
  - exists a, b. split_and!; [done|by eapply char_at_int_bounds..].
  - destruct (options_of block_string !! "se") as [v|]; [|done].
    destruct Hse as (x & _ & ->). done.
Qed.

(** X8: a decoded block is encoded exactly when its block string had an
    [se] option; a block decoded from a string without one makes
    [_encode_block_string] raise [TypeError]. *)
Theorem encode_decoded_block (block_string : string) (block : BlockArgs) :
  _decode_block_string block_string = Ok block →
  match options_of block_string !! "se" with
  | Some _ => ∃ encoded, _encode_block_string block = Ok encoded
  | None =>
      _encode_block_string block
      = Raise (TypeError "'>' not supported between instances of 'NoneType' and 'int'")
  end.
Proof.
  intros (s & a & b & _ & _ & _ & _ & _ & _ & _ & _ & Hse & _ & _ & Hstrides)
           %decode_Ok_steps.
  unfold _encode_block_string. rewrite Hstrides. simpl.
  destruct (options_of block_string !! "se") as [v|].
  - destruct Hse as (x & _ & ->). simpl. eauto.
  - by rewrite Hse.
Qed.

(** The round trip of a block with counts that are natural numbers, a
    pair of digits as [strides] and an [se_ratio] in range. *)
Lemma round_trip_in_range (block : BlockArgs) (stride0 stride1 : Z) (x : float) :
  0 ≤ num_repeat block → 0 ≤ kernel_size block → 0 ≤ expand_ratio block →
  0 ≤ input_filters block → 0 ≤ output_filters block →
  strides block = [stride0; stride1] → 0 ≤ stride0 ≤ 9 → 0 ≤ stride1 ≤ 9 →
  se_ratio block = Some x →
  PrimFloat.ltb 0 x && PrimFloat.leb x 1 = true →
  numeric_text (Py.str_float x) = true →
  Py.float_of_str (Py.str_float x) = Some x →
  round_trip block = Ok block.
Proof.
  intros Hr Hk He Hi Ho Hstrides Ha Hb Hse Hrange Htext Hfloat.
  destruct (strides_digits stride0 stride1) as (Hs & Hlen & Hs0 & Hs1); [lia..|].
  pose proof (numeric_text_str_int _ Hr). pose proof (numeric_text_str_int _ Hk).
  pose proof (numeric_text_str_int _ He). pose proof (numeric_text_str_int _ Hi).
  pose proof (numeric_text_str_int _ Ho).
  unfold round_trip. erewrite encode_in_range by done.
  change (Ok ?s ≫= _decode_block_string) with (_decode_block_string s).
  unfold _decode_block_string.
  rewrite options_of_tokens, contains_noskip_tokens by (done || by intros ? [= <-]).
  unfold int_option, Py.getitem. simplify_map_eq.
  rewrite Hlen, !int_of_str_str_int, Hs0, Hs1 by lia.
  simpl. rewrite negb_involutive.
  destruct block. simpl in *. by subst.
Qed.

(** X9: a block decoded from a block string, with an [se_ratio] in
    range whose text is numeric and reads back as the same float, is a
    fixed point of the round trip: encoding it and decoding the string
    gives the block again, whatever the order and the spelling of the
    tokens it was first decoded from. *)
Theorem round_trip_decoded_block (block_string : string) (block : BlockArgs)
    (x : float) :
  _decode_block_string block_string = Ok block →
  se_ratio block = Some x →
  PrimFloat.ltb 0 x && PrimFloat.leb x 1 = true →
  numeric_text (Py.str_float x) = true →
  Py.float_of_str (Py.str_float x) = Some x →
  round_trip block = Ok block.
Proof.
  intros (s & a & b & _ & _ & Hk & Hr & Hi & Ho & He & _ & _ & Ha & Hb & Hstrides)
           %decode_Ok_steps Hse Hrange Htext Hfloat.
  apply (round_trip_in_range block a b x);
    by eauto using int_option_nonneg, char_at_int_bounds.
Qed.

(** X10: the round trip loses data without an error.  For a block with
    counts that are natural numbers and digits as its first two strides, an
    [se_ratio] outside the interval from 0, excluded, to 1, included, is
    not written, and strides after the second are not written either: the
    decoded block has no [se_ratio] and exactly two strides. *)
Theorem round_trip_out_of_range (block : BlockArgs) (stride0 stride1 : Z)
    (rest : list Z) (x : float) :
  0 ≤ num_repeat block → 0 ≤ kernel_size block → 0 ≤ expand_ratio block →
  0 ≤ input_filters block → 0 ≤ output_filters block →
  strides block = stride0 :: stride1 :: rest →
  0 ≤ stride0 ≤ 9 → 0 ≤ stride1 ≤ 9 →
  se_ratio block = Some x →
  PrimFloat.ltb 0 x && PrimFloat.leb x 1 = false →
  round_trip block
  = Ok {| kernel_size := kernel_size block; num_repeat := num_repeat block;
          input_filters := input_filters block;
          output_filters := output_filters block;
          expand_ratio := expand_ratio block; id_skip := id_skip block;
          se_ratio := None; strides := [stride0; stride1] |}.
Proof.
  intros Hr Hk He Hi Ho Hstrides Ha Hb Hse Hrange.
  unfold round_trip, _encode_block_string.
  rewrite Hstrides, Hse, Hrange. simpl.
  rewrite <- (decode_block_tokens (num_repeat block) (kernel_size block)
                stride0 stride1 (expand_ratio block) (input_filters block)
                (output_filters block) (id_skip block)) by done.
  unfold block_tokens. by destruct (id_skip block).
Qed.

End DecodedBlocks.

(** ** [encode] on a sequence *)

Section EncodeList.

Context `{FloatIO : Py.FloatText}.

Lemma encode_Ok_iff (blocks_args : list BlockArgs) (block_strings : list string) :
  encode blocks_args = Ok block_strings
  ↔ Forall2 (λ block block_string, _encode_block_string block = Ok block_string)
      blocks_args block_strings.
Proof.
  revert block_strings. induction blocks_args as [|b rest IH]; intros strings.
  - split; [intros [= <-]; constructor | by inversion 1].
  - cbn [encode]. split.
    + intros (s & Hb & (ss & Hrest & [= <-])%bind_Ok)%bind_Ok.
      constructor; [done|]. by apply IH.
    + intros (s & ss & Hb & Hrest & ->)%Forall2_cons_inv_l.
      apply bind_Ok. exists s. split; [done|].
      apply bind_Ok. exists ss. split; [by apply IH|done].
Qed.

Lemma encode_Raise_iff (blocks_args : list BlockArgs) (e : exn) :
  encode blocks_args = Raise e
  ↔ ∃ pre bad post block_strings,
      blocks_args = pre ++ bad :: post
      ∧ Forall2 (λ block block_string, _encode_block_string block = Ok block_string)
          pre block_strings
      ∧ _encode_block_string bad = Raise e.
Proof.
  induction blocks_args as [|b rest IH].
  - split; [done|]. by intros ([|? ?] & ? & ? & ? & ? & _).
  - cbn [encode]. split.
    + intros [Hb | (s & Hb & [Hrest | (ss & _ & [=])]%bind_Raise)]%bind_Raise.
      * exists [], b, rest, []. by split_and!.
      * apply IH in Hrest as (pre & bad & post & strings & -> & Hpre & Hbad).
        exists (b :: pre), bad, post, (s :: strings).
        split_and!; [done| by constructor |done].
    + intros ([|b' pre] & bad & post & strings & Heq & Hpre & Hbad);
        simplify_eq/=; apply bind_Raise; [by left|].
      apply Forall2_cons_inv_l in Hpre as (s & strings' & Hb & Hpre & ->).
      right. exists s. split; [done|]. apply bind_Raise. left.
      apply IH. eauto 10.
Qed.

(** [_encode_block_string] returns exactly for the blocks that have two
    strides to read and an [se_ratio] to compare. *)
Lemma encode_block_Ok_iff (block : BlockArgs) :
  (∃ block_string, _encode_block_string block = Ok block_string)
  ↔ (2 ≤ length (strides block))%nat ∧ is_Some (se_ratio block).
Proof.
  unfold _encode_block_string.
  destruct (strides block) as [|a [|b rest]]; simpl.
  - split; [by intros [? ?] | intros [? _]; lia].
  - split; [by intros [? ?] | intros [? _]; lia].
  - destruct (se_ratio block) as [x|]; simpl.
    + split; [intros _; split; [lia|by eexists] | by eauto].
    + split; [by intros [? ?] | by intros [_ [? ?]]].
Qed.

(** X11: [encode] returns the strings of its blocks, one by one and in
    order, exactly when every block is encoded; it raises [e] exactly when
    some block raises [e] and every block before it is encoded, and then no
    list is returned. *)
Theorem encode_elementwise (blocks_args : list BlockArgs) :
  (∀ block_strings,
     encode blocks_args = Ok block_strings
     ↔ Forall2 (λ block block_string,
                  _encode_block_string block = Ok block_string)
         blocks_args block_strings)
  ∧ (∀ e,
       encode blocks_args = Raise e
       ↔ ∃ pre bad post block_strings,
           blocks_args = pre ++ bad :: post
           ∧ Forall2 (λ block block_string,
                        _encode_block_string block = Ok block_string)
               pre block_strings
           ∧ _encode_block_string bad = Raise e).
Proof. split; [apply encode_Ok_iff | apply encode_Raise_iff]. Qed.

(** X12: [encode] returns a list exactly when every block of the
    sequence has at least two strides and an [se_ratio]; one block without
    an [se_ratio], or with fewer than two strides, makes the whole call
    fail. *)
Theorem encode_returns_iff (blocks_args : list BlockArgs) :
  (∃ block_strings, encode blocks_args = Ok block_strings)
  ↔ Forall (λ block, (2 ≤ length (strides block))%nat ∧ is_Some (se_ratio block))
      blocks_args.
Proof.
  induction blocks_args as [|b rest IH].
  - split; [constructor | by exists []].
  - rewrite Forall_cons, <- IH, <- encode_block_Ok_iff. cbn [encode]. split.
    + intros [strings (s & Hb & (ss & Hrest & _)%bind_Ok)%bind_Ok]. eauto.
    + intros [[s Hb] [ss Hrest]]. exists (s :: ss). by rewrite Hb, Hrest.
Qed.

End EncodeList.

(** ** The tokens of a block string *)

Lemma split_not_nil (sep : ascii) (s : string) : Py.split sep s ≠ [].
Proof.
  induction s as [|c s IH]; [done|]. simpl.
  destruct (Ascii.eqb c sep); [done|]. by destruct (Py.split sep s).
Qed.

Lemma join_cons (sep tok : string) (tokens : list string) :
  tokens ≠ [] → Py.join sep (tok :: tokens) = tok +:+ sep +:+ Py.join sep tokens.
Proof. by destruct tokens. Qed.

(** Joining the tokens of a text gives the text back. *)
Lemma join_split (sep : ascii) (s : string) :
  Py.join (String sep "") (Py.split sep s) = s.
Proof.
  induction s as [|c s IH]; [done|]. simpl.
  pose proof (split_not_nil sep s) as Hne.
  destruct (Ascii.eqb_spec c sep) as [->|Hc].
  - rewrite join_cons by done. by rewrite IH.
  - destruct (Py.split sep s) as [|tok toks]; [done|].
    rewrite <- IH. destruct toks; [done|].
    rewrite !join_cons by done. by rewrite app_String.
Qed.

Lemma split_app (sep : ascii) (s t : string) :
  Py.split sep (s +:+ String sep t) = Py.split sep s ++ Py.split sep t.
Proof.
  induction s as [|c s IH].
  - rewrite app_empty_l. simpl. by rewrite Ascii.eqb_refl.
  - rewrite app_String. simpl. rewrite IH.
    destruct (Ascii.eqb c sep); [done|].
    pose proof (split_not_nil sep s) as Hne.
    by destruct (Py.split sep s).
Qed.

Lemma prefix_app_sep (sep : ascii) (sub s t : string) :
  Py.all_chars (λ c, negb (Ascii.eqb c sep)) sub = true →
  String.prefix sub (s +:+ String sep t) = String.prefix sub s.
Proof.
  revert s. induction sub as [|a sub IH]; intros s Hsub; [by destruct s|].
  simpl in Hsub. apply andb_true_iff in Hsub as [Ha Hsub].
  apply negb_true_iff in Ha.
  destruct s as [|c s].
  - rewrite app_empty_l. simpl. destruct (ascii_dec a sep) as [->|?]; [|done].
    by rewrite Ascii.eqb_refl in Ha.
  - rewrite app_String. simpl. destruct (ascii_dec a c); [by apply IH|done].
Qed.

Lemma contains_app_sep (sep : ascii) (sub s t : string) :
  sub ≠ "" →
  Py.all_chars (λ c, negb (Ascii.eqb c sep)) sub = true →
  Py.contains sub (s +:+ String sep t) = Py.contains sub s || Py.contains sub t.
Proof.
  intros Hne Hsub. induction s as [|c s IH].
  - rewrite app_empty_l. cbn [Py.contains].
    rewrite <- (app_empty_l (String sep t)), prefix_app_sep by done.
    by destruct sub.
  - rewrite app_String. cbn [Py.contains]. rewrite IH.
    rewrite <- app_String, prefix_app_sep by done. by rewrite orb_assoc.
Qed.

Lemma contains_join (sep : ascii) (sub : string) (tokens : list string) :
  sub ≠ "" →
  Py.all_chars (λ c, negb (Ascii.eqb c sep)) sub = true →
  Py.contains sub (Py.join (String sep "") tokens)
  = existsb (Py.contains sub) tokens.
Proof.
  intros Hne Hsub. induction tokens as [|tok tokens IH]; [by destruct sub|].
  destruct tokens as [|tok' tokens]; [simpl; by rewrite orb_false_r|].
  rewrite join_cons by done. rewrite app_String, app_empty_l.
  rewrite contains_app_sep by done. by rewrite IH.
Qed.

(** [sub in s] for a text [sub] without the separator: it lies in one
    token of [s]. *)
Lemma contains_split (sep : ascii) (sub s : string) :
  sub ≠ "" →
  Py.all_chars (λ c, negb (Ascii.eqb c sep)) sub = true →
  Py.contains sub s = existsb (Py.contains sub) (Py.split sep s).
Proof.
  intros Hne Hsub. by rewrite <- (contains_join sep), join_split.
Qed.

Lemma existsb_Permutation {A} (p : A → bool) (l1 l2 : list A) :
  l1 ≡ₚ l2 → existsb p l1 = existsb p l2.
Proof.
  induction 1 as [|x l1 l2 _ IH|x y l|l1 l2 l3 _ IH1 _ IH2]; simpl.
  - done.
  - by rewrite IH.
  - by destruct (p x), (p y).
  - congruence.
Qed.

(** The options are the map of the tokens' entries, later ones first. *)
Lemma parse_options_entries (ops : list string) :
  parse_options ops = list_to_map (reverse (omap token_entry ops)).
Proof.
  induction ops as [|op ops IH] using rev_ind; [done|].
  rewrite parse_options_snoc, omap_app, reverse_app, IH.
  cbn [omap list_omap]. unfold token_entry.
  by destruct (key_value (Py.re_split op)) as [[key value]|].
Qed.

Lemma parse_options_Permutation (ops1 ops2 : list string) :
  ops1 ≡ₚ ops2 →
  NoDup (omap token_entry ops1).*1 →
  parse_options ops1 = parse_options ops2.
Proof.
  intros Hperm Hkeys. rewrite !parse_options_entries.
  apply list_to_map_proper.
  - by rewrite reverse_Permutation.
  - by rewrite !reverse_Permutation, Hperm.
Qed.

Section Tokens.

Context `{FloatIO : Py.FloatText}.

(** [_decode_block_string] reads the block string through the seven
    entries of its options and the substring test only. *)
Lemma decode_options_ext (block_string1 block_string2 : string) :
  (∀ key, key ∈ ["s"; "k"; "r"; "i"; "o"; "e"; "se"] →
          options_of block_string1 !! key = options_of block_string2 !! key) →
  Py.contains "noskip" block_string1 = Py.contains "noskip" block_string2 →
  _decode_block_string block_string1 = _decode_block_string block_string2.
Proof.
  intros Hkeys Hskip. unfold _decode_block_string, int_option, Py.getitem.
  rewrite Hskip.
  rewrite !(Hkeys "s"), !(Hkeys "k"), !(Hkeys "r"), !(Hkeys "i"), !(Hkeys "o"),
    !(Hkeys "e"), !(Hkeys "se") by (repeat constructor).
  reflexivity.
Qed.

(** X13: the order of the tokens does not matter.  Two block strings
    whose tokens are the same up to their order, no key being carried by
    two tokens, give the same result: the same block or the same error. *)
Theorem decode_token_order (block_string1 block_string2 : string) :
  Py.split "_" block_string1 ≡ₚ Py.split "_" block_string2 →
  NoDup (omap token_entry (Py.split "_" block_string1)).*1 →
  _decode_block_string block_string1 = _decode_block_string block_string2.
Proof.
  intros Hperm Hkeys. apply decode_options_ext.
  - intros key _. unfold options_of.
    by rewrite (parse_options_Permutation _ _ Hperm).
  - rewrite !(contains_split "_" "noskip") by done. by apply existsb_Permutation.
Qed.

(** X14: a token that is not understood is ignored without an error.
    Appending a token that does not hold [noskip] and that carries no key
    or a key other than [s], [k], [r], [i], [o], [e], [se] leaves the
    result as it is. *)
Theorem decode_ignores_token (block_string op : string) :
  Py.all_chars (λ c, negb (Ascii.eqb c "_")) op = true →
  Py.contains "noskip" op = false →
  (∀ key value, token_entry op = Some (key, value) →
                key ∉ ["s"; "k"; "r"; "i"; "o"; "e"; "se"]) →
  _decode_block_string (block_string +:+ "_" +:+ op)
  = _decode_block_string block_string.
Proof.
  intros Hsep Hskip Hkey. apply decode_options_ext.
  - intros key Hin. unfold options_of.
    change ("_" +:+ op) with (String "_" op).
    rewrite split_app, (split_no_sep "_" op), parse_options_snoc by done.
    destruct (key_value (Py.re_split op)) as [[key' value]|] eqn:Hop; [|done].
    apply lookup_insert_ne. intros ->. exact (Hkey key value Hop Hin).
  - change ("_" +:+ op) with (String "_" op).
    rewrite contains_app_sep by done. by rewrite Hskip, orb_false_r.
Qed.

End Tokens.

(** ** A key carried by several tokens *)

Lemma split_tokens_no_sep (sep : ascii) (s : string) :
  Forall (λ tok, Py.all_chars (λ c, negb (Ascii.eqb c sep)) tok = true)
    (Py.split sep s).
Proof.
  induction s as [|c s IH]; [by repeat constructor|]. simpl.
  destruct (Ascii.eqb c sep) eqn:Hc; [by constructor|].
  destruct (Py.split sep s) as [|tok toks].
  { repeat constructor. simpl. by rewrite Hc. }
  apply Forall_cons in IH as [Htok Htoks]. constructor; [|done].
  simpl. by rewrite Hc, Htok.
Qed.

(** A token leaves the entries of the other keys as they are. *)
Lemma parse_options_drop_other (pre post : list string) (op key value k : string) :
  key_value (Py.re_split op) = Some (key, value) →
  k ≠ key →
  parse_options (pre ++ op :: post) !! k = parse_options (pre ++ post) !! k.
Proof.
  intros Hop Hk. induction post as [|x post IH] using rev_ind.
  - rewrite app_nil_r, parse_options_snoc, Hop. by rewrite lookup_insert_ne.
  - rewrite app_comm_cons, !app_assoc, !parse_options_snoc.
    destruct (key_value (Py.re_split x)) as [[key' value']|]; [|done].
    destruct (decide (key' = k)) as [->|Hne].
    + by rewrite !lookup_insert_eq.
    + by rewrite !lookup_insert_ne.
Qed.

(** A token whose key is carried again by a later token leaves no trace in
    the options. *)
Lemma parse_options_drop_earlier (pre post : list string)
    (op later key value value' : string) :
  key_value (Py.re_split op) = Some (key, value) →
  later ∈ post → key_value (Py.re_split later) = Some (key, value') →
  parse_options (pre ++ op :: post) = parse_options (pre ++ post).
Proof.
  intros Hop Hin Hlater. induction post as [|x post IH] using rev_ind.
  { by apply elem_of_nil in Hin. }
  rewrite app_comm_cons, !app_assoc, !parse_options_snoc.
  destruct (key_value (Py.re_split x)) as [[key' value'']|] eqn:Hx.
  - apply map_eq. intros k. destruct (decide (key' = k)) as [->|Hne].
    + by rewrite !lookup_insert_eq.
    + rewrite !lookup_insert_ne by done.
      destruct (decide (k = key)) as [->|Hk];
        [|by apply (parse_options_drop_other _ _ _ key value)].
      f_equal. apply IH.
      apply elem_of_app in Hin as [Hin|Hin%list_elem_of_singleton]; [done|].
      subst x. congruence.
  - apply IH.
    apply elem_of_app in Hin as [Hin|Hin%list_elem_of_singleton]; [done|].
    subst x. congruence.
Qed.

Section LastWins.

Context `{FloatIO : Py.FloatText}.

Lemma int_option_value (options : gmap string string) (key value : string) (n : Z) :
  options !! key = Some value → int_option options key = Ok n →
  Py.int_of_str value = Ok n.
Proof. unfold int_option, Py.getitem. by intros ->. Qed.

(** An earlier token with a repeated key has no effect on the result. *)
Lemma decode_drop_earlier (block_string : string) (pre post : list string)
    (op later key value value' : string) :
  Py.split "_" block_string = pre ++ op :: post →
  key_value (Py.re_split op) = Some (key, value) →
  later ∈ post → key_value (Py.re_split later) = Some (key, value') →
  Py.contains "noskip" op = false →
  _decode_block_string block_string
  = _decode_block_string (Py.join "_" (pre ++ post)).
Proof.
  intros Hsplit Hop Hin Hlater Hskip.
  assert (Py.split "_" (Py.join "_" (pre ++ post)) = pre ++ post) as Hrest.
  { apply split_join.
    - intros [_ ->]%app_eq_nil. by apply elem_of_nil in Hin.
    - pose proof (split_tokens_no_sep "_" block_string) as Hall.
      rewrite Hsplit in Hall. rewrite Forall_app, Forall_cons in Hall.
      rewrite Forall_app. tauto. }
  apply decode_options_ext.
  - intros k _. unfold options_of. rewrite Hrest, Hsplit.
    by rewrite (parse_options_drop_earlier pre post op later key value value').
  - rewrite !(contains_split "_" "noskip") by done. rewrite Hrest, Hsplit.
    rewrite !existsb_app. simpl. by rewrite Hskip.
Qed.

(** C10: a key that occurs in several tokens does not make
    [_decode_block_string] fail.  The options hold the value of the last
    token that carries the key, and a decoded block has that value in the
    field the key fills, for each of [k], [r], [i], [o], [e], [s] and [se].
    An earlier token with the same key has no effect at all: the result,
    block or error, is that of the block string without this token (a token
    that holds [noskip] apart, which switches the skip connection off by
    its presence).  ["r1_r2_k3_s11_e1_i16_o24"] decodes with
    [num_repeat = 2]. *)
Theorem decode_duplicate_key_last_wins :
  (∀ (block_string : string) (pre post : list string) (op key value : string),
     Py.split "_" block_string = pre ++ op :: post →
     key_value (Py.re_split op) = Some (key, value) →
     (∀ op' value', op' ∈ post
                    → key_value (Py.re_split op') ≠ Some (key, value')) →
     options_of block_string !! key = Some value
     ∧ ∀ block, _decode_block_string block_string = Ok block →
         (key = "k" → Py.int_of_str value = Ok (kernel_size block))
         ∧ (key = "r" → Py.int_of_str value = Ok (num_repeat block))
         ∧ (key = "i" → Py.int_of_str value = Ok (input_filters block))
         ∧ (key = "o" → Py.int_of_str value = Ok (output_filters block))
         ∧ (key = "e" → Py.int_of_str value = Ok (expand_ratio block))
         ∧ (key = "s" →
            Py.len value = 2
            ∧ ∃ stride0 stride1,
                Py.char_at value 0 ≫= Py.int_of_str = Ok stride0
                ∧ Py.char_at value 1 ≫= Py.int_of_str = Ok stride1
                ∧ strides block = [stride0; stride1])
         ∧ (key = "se" →
            ∃ x, Py.float_of_str value = Some x ∧ se_ratio block = Some x))
  ∧ (∀ (block_string : string) (pre post : list string)
       (op later key value value' : string),
       Py.split "_" block_string = pre ++ op :: post →
       key_value (Py.re_split op) = Some (key, value) →
       later ∈ post → key_value (Py.re_split later) = Some (key, value') →
       Py.contains "noskip" op = false →
       _decode_block_string block_string
       = _decode_block_string (Py.join "_" (pre ++ post)))
  ∧ _decode_block_string "r1_r2_k3_s11_e1_i16_o24"
    = Ok {| kernel_size := 3; num_repeat := 2; input_filters := 16;
            output_filters := 24; expand_ratio := 1; id_skip := true;
            se_ratio := None; strides := [1; 1] |}.
Proof.
  split_and!; [|apply decode_drop_earlier|by vm_compute].
  intros block_string pre post op key value Hsplit Hop Hpost.
  assert (options_of block_string !! key = Some value) as Hkey.
  { unfold options_of. rewrite Hsplit. by apply parse_options_last. }
  split; [done|].
  intros block (s & a & b & Hs & Hlen & Hk & Hr & Hi & Ho & He & _ & Hse & Ha & Hb
                & Hstrides)%decode_Ok_steps.
  split_and!; intros ->; try by eapply int_option_value.
  - rewrite Hkey in Hs. injection Hs as <-. split; [done|]. by exists a, b.
  - by rewrite Hkey in Hse.
Qed.

End LastWins.

(** ** The preset and the build for any kernel size and expansion ratio *)

Lemma str_int_neg (n : Z) : n < 0 → Py.str_int n = String "-" (Py.str_int (- n)).
Proof. intros Hn. destruct n as [|p|p]; [lia|lia|reflexivity]. Qed.

Lemma str_int_no_sep (n : Z) :
  Py.all_chars (λ c, negb (Ascii.eqb c "_")) (Py.str_int n) = true.
Proof.
  assert (∀ m, 0 ≤ m →
            Py.all_chars (λ c, negb (Ascii.eqb c "_")) (Py.str_int m) = true) as Hpos.
  { intros m Hm. by destruct (numeric_text_inv _ (numeric_text_str_int m Hm))
      as (_ & ? & _). }
  destruct (Z.lt_ge_cases n 0) as [Hn|Hn]; [|by apply Hpos].
  rewrite str_int_neg by done. simpl. apply Hpos. lia.
Qed.

(** The token a key and the text of an integer make: a negative integer
    leaves its sign with the key, since the value starts at the first
    digit. *)
Lemma key_value_int_token (key : string) (n : Z) :
  Py.all_chars (λ c, negb (Py.isdigit c)) key = true →
  key_value (Py.re_split (key +:+ Py.str_int n))
  = Some (if n <? 0 then key +:+ "-" else key, Py.str_int (Z.abs n)).
Proof.
  intros Hkey. destruct (Z.ltb_spec n 0) as [Hn|Hn].
  - rewrite str_int_neg by done.
    change (String "-" ?v) with ("-" +:+ v). rewrite <- append_assoc.
    destruct (numeric_text_inv _ (numeric_text_str_int (- n) ltac:(lia)))
      as (Hd & _ & Hl & _).
    rewrite re_split_token; [|by rewrite all_chars_app, Hkey|done|done].
    simpl. do 2 f_equal. f_equal. lia.
  - destruct (numeric_text_inv _ (numeric_text_str_int n Hn)) as (Hd & _ & Hl & _).
    rewrite re_split_token by done. simpl. do 2 f_equal. f_equal. lia.
Qed.

Lemma options_of_stage (k e a b i o : Z) :
  0 ≤ a ≤ 9 → 0 ≤ b ≤ 9 → 0 ≤ i → 0 ≤ o →
  options_of (stage_string k e a b i o)
  = <["o" := Py.str_int o]> (<["i" := Py.str_int i]>
      (<[(if e <? 0 then "e-" else "e") := Py.str_int (Z.abs e)]>
         (<["s" := Py.str_int a +:+ Py.str_int b]>
            (<[(if k <? 0 then "k-" else "k") := Py.str_int (Z.abs k)]>
               (<["r" := "4"]> ∅))))).
Proof.
  intros Ha Hb Hi Ho.
  destruct (strides_digits a b Ha Hb) as ((Ds & Us & Ns & _)%numeric_text_inv & _).
  assert (stage_string k e a b i o
          = Py.join "_" ["r" +:+ "4"; "k" +:+ Py.str_int k;
                         "s" +:+ Py.str_int a +:+ Py.str_int b;
                         "e" +:+ Py.str_int e; "i" +:+ Py.str_int i;
                         "o" +:+ Py.str_int o]) as ->.
  { unfold stage_string, Py.join. cbn [String.concat].
    by rewrite !append_assoc. }
  unfold options_of. rewrite split_join; cycle 1.
  { done. }
  { repeat constructor; rewrite ?all_chars_app, ?str_int_no_sep;
      by apply andb_true_iff. }
  unfold parse_options. cbn [foldl].
  rewrite !key_value_int_token by done.
  rewrite re_split_token by done. cbn [key_value].
  destruct (Z.ltb_spec i 0), (Z.ltb_spec o 0); try lia.
  by rewrite (Z.abs_eq i), (Z.abs_eq o).
Qed.

Section Backbone.

Context `{FloatIO : Py.FloatText}.

(** A stage string written with a negative kernel size or expansion ratio
    has no [k] or no [e] entry, and the first of the two that is read is
    the key of the [KeyError]. *)
Lemma decode_stage_negative (k e a b i o : Z) :
  0 ≤ a ≤ 9 → 0 ≤ b ≤ 9 → 0 ≤ i → 0 ≤ o →
  k < 0 ∨ e < 0 →
  _decode_block_string (stage_string k e a b i o)
  = Raise (KeyError (if k <? 0 then "k" else "e")).
Proof.
  intros Ha Hb Hi Ho Hneg.
  destruct (strides_digits a b Ha Hb) as (_ & Hlen & _).
  unfold _decode_block_string. rewrite options_of_stage by done.
  unfold int_option, Py.getitem.
  destruct (Z.ltb_spec k 0) as [Hk|Hk].
  - destruct (e <? 0); simplify_map_eq; by rewrite Hlen.
  - destruct (Z.ltb_spec e 0) as [He|He]; [|lia]. simplify_map_eq.
    rewrite Hlen. rewrite Z.abs_eq, !int_of_str_str_int by done. reflexivity.
Qed.

Lemma decode_stage (k e a b i o : Z) :
  0 ≤ k → 0 ≤ e → 0 ≤ a ≤ 9 → 0 ≤ b ≤ 9 → 0 ≤ i → 0 ≤ o →
  _decode_block_string (stage_string k e a b i o)
  = Ok {| kernel_size := k; num_repeat := 4; input_filters := i;
          output_filters := o; expand_ratio := e; id_skip := true;
          se_ratio := None; strides := [a; b] |}.
Proof.
  intros Hk He Ha Hb Hi Ho.
  rewrite <- (decode_block_tokens 4 k a b e i o true) by lia.
  f_equal. unfold stage_string, block_tokens, Py.join. cbn [app String.concat].
  change (Py.str_int 4) with "4".
  by rewrite !append_assoc.
Qed.

Lemma mnasnet_backbone_stages (k e : Z) :
  mnasnet_backbone k e
  = (decoded ← decode [ "r1_k3_s11_e1_i32_o16_noskip";
                        stage_string k e 2 2 16 24; stage_string k e 2 2 24 40;
                        stage_string k e 2 2 40 80; stage_string k e 1 1 80 96;
                        stage_string k e 2 2 96 192;
                        "r1_k3_s11_e6_i192_o320_noskip" ];
     Ok (decoded,
         {| batch_norm_momentum := Py.Float 0.99;
            batch_norm_epsilon := Py.Float 1e-3;
            dropout_rate := Py.Float 0.2;
            data_format := Py.Str "channels_last";
            num_classes := Py.Int 1000;
            depth_multiplier := Py.None_;
            depth_divisor := Py.Int 8;
            expratio := Py.Int e;
            kernel := Py.Int k;
            min_depth := Py.None_ |})).
Proof. reflexivity. Qed.

Lemma decode_first_stage :
  _decode_block_string "r1_k3_s11_e1_i32_o16_noskip"
  = Ok {| kernel_size := 3; num_repeat := 1; input_filters := 32;
          output_filters := 16; expand_ratio := 1; id_skip := false;
          se_ratio := None; strides := [1; 1] |}.
Proof. exact (decode_block_tokens 1 3 1 1 1 32 16 false ltac:(lia) ltac:(lia) ltac:(lia) ltac:(lia) ltac:(lia) ltac:(lia) ltac:(lia)). Qed.

Lemma mnasnet_backbone_raises (k e : Z) :
  k < 0 ∨ e < 0 →
  mnasnet_backbone k e = Raise (KeyError (if k <? 0 then "k" else "e")).
Proof.
  intros Hneg. rewrite mnasnet_backbone_stages. cbn [decode].
  rewrite decode_first_stage.
  rewrite (decode_stage_negative k e 2 2 16 24) by (done || lia). reflexivity.
Qed.

Lemma mnasnet_backbone_returns (k e : Z) :
  0 ≤ k → 0 ≤ e →
  ∃ blocks_args,
    mnasnet_backbone k e
    = Ok (blocks_args,
          {| batch_norm_momentum := Py.Float 0.99;
             batch_norm_epsilon := Py.Float 1e-3;
             dropout_rate := Py.Float 0.2;
             data_format := Py.Str "channels_last";
             num_classes := Py.Int 1000;
             depth_multiplier := Py.None_;
             depth_divisor := Py.Int 8;
             expratio := Py.Int e;
             kernel := Py.Int k;
             min_depth := Py.None_ |})
    ∧ length blocks_args = 7%nat
    ∧ Forall (λ block, se_ratio block = None) blocks_args.
Proof.
  intros Hk He. rewrite mnasnet_backbone_stages. cbn [decode].
  rewrite decode_first_stage.
  rewrite !decode_stage by (done || lia).
  pose proof (decode_block_tokens 1 3 1 1 6 192 320 false) as Hlast.
  repeat (specialize (Hlast ltac:(lia))).
  change (_decode_block_string "r1_k3_s11_e6_i192_o320_noskip" = Ok
            {| kernel_size := 3; num_repeat := 1; input_filters := 192;
               output_filters := 320; expand_ratio := 6; id_skip := false;
               se_ratio := None; strides := [1; 1] |}) in Hlast.
  rewrite Hlast. eexists. split; [reflexivity|]. split; [done|].
  repeat constructor.
Qed.

Lemma mnasnet_backbone_Ok_nonneg (k e : Z) (result : list BlockArgs * GlobalParams) :
  mnasnet_backbone k e = Ok result → 0 ≤ k ∧ 0 ≤ e.
Proof.
  intros Hresult.
  destruct (Z.lt_ge_cases k 0) as [Hneg|?];
    [by rewrite mnasnet_backbone_raises in Hresult by (by left)|].
  destruct (Z.lt_ge_cases e 0) as [Hneg|?];
    [by rewrite mnasnet_backbone_raises in Hresult by (by right)|].
  done.
Qed.

(** X15: [mnasnet_backbone] does not reject a negative kernel size or
    expansion ratio as such.  The sign goes to the key of the token, the
    second block string has no [k] (or no [e]) entry, and decoding it
    raises the [KeyError] of that key: of [k] when the kernel size is
    negative, of [e] otherwise. *)
Theorem mnasnet_backbone_negative (k e : Z) :
  k < 0 ∨ e < 0 →
  mnasnet_backbone k e = Raise (KeyError (if k <? 0 then "k" else "e")).
Proof. apply mnasnet_backbone_raises. Qed.

Lemma unexpected_names_nil_iff (kwds : gmap string Py.value) :
  unexpected_names kwds = [] ↔ ∀ name, is_Some (kwds !! name) → name ∈ _fields.
Proof.
  split; [|apply unexpected_names_nil].
  intros Hnil name Hsome. destruct (decide (name ∈ _fields)) as [|Hnot]; [done|].
  assert (name ∈ unexpected_names kwds) as Hin
    by by apply elem_of_unexpected_names.
  rewrite Hnil in Hin. by apply elem_of_nil in Hin.
Qed.

(** The steps of [build_mnasnet_model] for ["mnasnet-backbone"] once the
    two build parameters are read: the dictionary is not empty, so
    [_replace] runs. *)
Lemma build_backbone_steps (kwds : gmap string Py.value) (vk ve : Py.value) (k e : Z) :
  kwds !! "kernel" = Some vk → kwds !! "expratio" = Some ve →
  Py.int vk = Ok k → Py.int ve = Ok e →
  build_mnasnet_model "mnasnet-backbone" (Some kwds)
  = ('(blocks_args, global_params) ← mnasnet_backbone k e;
     global_params ← _replace global_params kwds;
     Ok (blocks_args, global_params)).
Proof.
  intros Hvk Hve Hk He. unfold build_mnasnet_model. cbn [String.eqb Ascii.eqb].
  unfold override_item, Py.getitem. rewrite Hvk, Hve. simpl. rewrite Hk, He. simpl.
  destruct (mnasnet_backbone k e) as [[blocks gp0]|]; [simpl|done].
  unfold apply_overrides. case_bool_decide as Hempty; [|done].
  by rewrite Hempty, lookup_empty in Hvk.
Qed.

Lemma build_backbone_inv (override_params : option (gmap string Py.value))
    (result : list BlockArgs * GlobalParams) :
  build_mnasnet_model "mnasnet-backbone" override_params = Ok result →
  ∃ kwds vk ve k e,
    override_params = Some kwds
    ∧ kwds !! "kernel" = Some vk ∧ kwds !! "expratio" = Some ve
    ∧ Py.int vk = Ok k ∧ Py.int ve = Ok e.
Proof.
  unfold build_mnasnet_model. cbn [String.eqb Ascii.eqb]. intros H.
  apply bind_Ok in H as (k & Hk & H). apply bind_Ok in H as (e & He & _).
  apply bind_Ok in Hk as (vk & Hvk & Hk). apply bind_Ok in He as (ve & Hve & He).
  destruct override_params as [kwds|]; [|done].
  unfold override_item, Py.getitem in Hvk, Hve.
  destruct (kwds !! "kernel") as [vk'|] eqn:Hvk'; [|done].
  destruct (kwds !! "expratio") as [ve'|] eqn:Hve'; [|done].
  simplify_eq. by exists kwds, vk, ve, k, e.
Qed.

(** X16: [build_mnasnet_model] returns for ["mnasnet-backbone"] exactly
    when [override_params] is a dictionary that holds [kernel] and
    [expratio], [int] of both succeeds with a result that is not negative,
    and every key of the dictionary names a field of [GlobalParams]. *)
Theorem build_backbone_returns_iff (override_params : option (gmap string Py.value)) :
  is_Ok (build_mnasnet_model "mnasnet-backbone" override_params) = true
  ↔ ∃ kwds vk ve k e,
      override_params = Some kwds
      ∧ kwds !! "kernel" = Some vk ∧ kwds !! "expratio" = Some ve
      ∧ Py.int vk = Ok k ∧ Py.int ve = Ok e ∧ 0 ≤ k ∧ 0 ≤ e
      ∧ ∀ name, is_Some (kwds !! name) → name ∈ _fields.
Proof.
  split.
  - destruct (build_mnasnet_model _ _) as [result|] eqn:Hbuild; [intros _|done].
    destruct (build_backbone_inv _ _ Hbuild)
      as (kwds & vk & ve & k & e & -> & Hvk & Hve & Hk & He).
    exists kwds, vk, ve, k, e.
    rewrite (build_backbone_steps kwds vk ve k e) in Hbuild by done.
    destruct (mnasnet_backbone k e) as [[blocks preset]|] eqn:Hpreset; [|done].
    destruct (mnasnet_backbone_Ok_nonneg _ _ _ Hpreset) as [Hk0 He0].
    split_and!; try done.
    simpl in Hbuild. unfold _replace in Hbuild.
    apply unexpected_names_nil_iff.
    by destruct (unexpected_names kwds).
  - intros (kwds & vk & ve & k & e & -> & Hvk & Hve & Hk & He & Hk0 & He0 & Hknown).
    rewrite (build_backbone_steps kwds vk ve k e) by done.
    destruct (mnasnet_backbone_returns k e Hk0 He0) as (blocks & -> & _).
    simpl. unfold _replace. by rewrite (unexpected_names_nil _ Hknown).
Qed.

(** X17: what [build_mnasnet_model] hands to the model when it
    returns.  The blocks are the seven blocks of [mnasnet_backbone] for the
    integers [int] makes of the two build parameters, none with an
    [se_ratio].  The fields [kernel] and [expratio] of the global
    parameters hold the values of the dictionary as they were passed (the
    text ["5"] stays a text), not those integers, since [_replace] writes
    them over the preset's; every other field holds the dictionary's value
    when there is one and the preset's otherwise. *)
Theorem build_backbone_result (override_params : option (gmap string Py.value))
    (blocks_args : list BlockArgs) (global_params : GlobalParams) :
  build_mnasnet_model "mnasnet-backbone" override_params
  = Ok (blocks_args, global_params) →
  ∃ kwds k e preset,
    override_params = Some kwds
    ∧ kwds !! "kernel" = Some (kernel global_params)
    ∧ kwds !! "expratio" = Some (expratio global_params)
    ∧ Py.int (kernel global_params) = Ok k
    ∧ Py.int (expratio global_params) = Ok e
    ∧ mnasnet_backbone k e = Ok (blocks_args, preset)
    ∧ length blocks_args = 7%nat
    ∧ Forall (λ block, se_ratio block = None) blocks_args
    ∧ ∀ name, name ∈ _fields →
        getattr global_params name
        = match kwds !! name with
          | Some v => Some v
          | None => getattr preset name
          end.
Proof.
  intros Hbuild.
  destruct (build_backbone_inv _ _ Hbuild)
    as (kwds & vk & ve & k & e & -> & Hvk & Hve & Hk & He).
  rewrite (build_backbone_steps kwds vk ve k e) in Hbuild by done.
  destruct (mnasnet_backbone k e) as [[blocks preset]|] eqn:Hpreset; [|done].
  destruct (mnasnet_backbone_Ok_nonneg _ _ _ Hpreset) as [Hk0 He0].
  destruct (mnasnet_backbone_returns k e Hk0 He0) as (blocks' & Hblocks & Hlen & Hse).
  rewrite Hblocks in Hpreset. injection Hpreset as <- <-.
  simpl in Hbuild. unfold _replace in Hbuild.
  destruct (unexpected_names kwds); [|done]. simpl in Hbuild.
  injection Hbuild as <- <-. cbn [kernel expratio].
  eexists kwds, k, e, _.
  split_and!; [done|by rewrite Hvk|by rewrite Hve|by rewrite Hvk|by rewrite Hve
              |done|done|done|].
  intros name Hin. unfold _fields in Hin.
  repeat (apply elem_of_cons in Hin as [->|Hin];
          [unfold getattr; simpl;
           match goal with
           | |- _ = match ?l with Some _ => _ | None => _ end => by destruct l
           end|]).
  by apply elem_of_nil in Hin.
Qed.

(** X18: the errors of [build_mnasnet_model] for ["mnasnet-backbone"],
    in the order the code meets them.  Without [override_params] (the
    default, [None]) the subscript raises [TypeError].  A dictionary
    without [kernel] raises [KeyError] for it, whatever else it holds; an
    error of [int] on the kernel comes next, then the [KeyError] for a
    missing [expratio], then an error of [int] on it.  With both integers
    read, a negative one raises the [KeyError] of the block string, for
    the key [k] or [e] and not for the name of the parameter. *)
Theorem build_backbone_parameter_errors :
  build_mnasnet_model "mnasnet-backbone" None
  = Raise (TypeError "'NoneType' object is not subscriptable")
  ∧ (∀ kwds,
       kwds !! "kernel" = None →
       build_mnasnet_model "mnasnet-backbone" (Some kwds)
       = Raise (KeyError "kernel"))
  ∧ (∀ kwds vk err,
       kwds !! "kernel" = Some vk → Py.int vk = Raise err →
       build_mnasnet_model "mnasnet-backbone" (Some kwds) = Raise err)
  ∧ (∀ kwds vk k,
       kwds !! "kernel" = Some vk → Py.int vk = Ok k →
       kwds !! "expratio" = None →
       build_mnasnet_model "mnasnet-backbone" (Some kwds)
       = Raise (KeyError "expratio"))
  ∧ (∀ kwds vk k ve err,
       kwds !! "kernel" = Some vk → Py.int vk = Ok k →
       kwds !! "expratio" = Some ve → Py.int ve = Raise err →
       build_mnasnet_model "mnasnet-backbone" (Some kwds) = Raise err)
  ∧ (∀ kwds vk k ve e,
       kwds !! "kernel" = Some vk → Py.int vk = Ok k →
       kwds !! "expratio" = Some ve → Py.int ve = Ok e →
       k < 0 ∨ e < 0 →
       build_mnasnet_model "mnasnet-backbone" (Some kwds)
       = Raise (KeyError (if k <? 0 then "k" else "e"))).
Proof.
  split_and!; [done|..].
  - intros kwds Hvk. unfold build_mnasnet_model, override_item, Py.getitem.
    cbn [String.eqb Ascii.eqb]. by rewrite Hvk.
  - intros kwds vk err Hvk Hk. unfold build_mnasnet_model, override_item, Py.getitem.
    cbn [String.eqb Ascii.eqb]. rewrite Hvk. simpl. by rewrite Hk.
  - intros kwds vk k Hvk Hk Hve.
    unfold build_mnasnet_model, override_item, Py.getitem.
    cbn [String.eqb Ascii.eqb]. rewrite Hvk, Hve. simpl. by rewrite Hk.
  - intros kwds vk k ve err Hvk Hk Hve He.
    unfold build_mnasnet_model, override_item, Py.getitem.
    cbn [String.eqb Ascii.eqb]. rewrite Hvk, Hve. simpl. by rewrite Hk, He.
  - intros kwds vk k ve e Hvk Hk Hve He Hneg.
    rewrite (build_backbone_steps kwds vk ve k e) by done.
    by rewrite mnasnet_backbone_raises.
Qed.

End Backbone.

(** ** Blocks the round trip rejects *)

Lemma str_int_chars (n : Z) :
  Py.all_chars (λ c, Py.isdigit c || Ascii.eqb c "-") (Py.str_int n) = true.
Proof.
  assert (∀ m, 0 ≤ m →
            Py.all_chars (λ c, Py.isdigit c || Ascii.eqb c "-") (Py.str_int m) = true)
    as Hpos.
  { intros m Hm. destruct (str_int_digits m Hm) as [Hdigits _].
    eapply all_chars_impl; [|exact Hdigits]. by intros c ->. }
  destruct (Z.lt_ge_cases n 0) as [Hn|Hn]; [|by apply Hpos].
  rewrite str_int_neg by done. simpl. apply Hpos. lia.
Qed.

Lemma str_int_no_newline (n : Z) :
  Py.all_chars (λ c, negb (Ascii.eqb c Py.newline)) (Py.str_int n) = true.
Proof.
  eapply all_chars_impl; [|apply str_int_chars].
  intros c. by destruct c as [[] [] [] [] [] [] [] []].
Qed.

Lemma str_int_without_n (n : Z) :
  Py.all_chars (λ c, negb (Ascii.eqb c "n")) (Py.str_int n) = true.
Proof.
  eapply all_chars_impl; [|apply str_int_chars].
  intros c. by destruct c as [[] [] [] [] [] [] [] []].
Qed.

Lemma length_app (s t : string) :
  String.length (s +:+ t) = (String.length s + String.length t)%nat.
Proof. induction s as [|c s IH]; [done|]. rewrite app_String. simpl. by rewrite IH. Qed.

(** The text of an integer has one character exactly for 0 to 9. *)
Lemma length_str_int (n : Z) :
  (1 ≤ String.length (Py.str_int n))%nat
  ∧ (String.length (Py.str_int n) = 1%nat → 0 ≤ n ≤ 9).
Proof.
  destruct (Z.lt_ge_cases n 0) as [Hn|Hn].
  - rewrite str_int_neg by done. simpl.
    destruct (str_int_digits (- n) ltac:(lia)) as [_ Hne].
    destruct (Py.str_int (- n)); [done|]. simpl. split; lia.
  - destruct (str_int_digits n Hn) as [_ Hne].
    pose proof (int_of_str_str_int n Hn) as Hint.
    destruct (Py.str_int n) as [|c [|c' s]]; [done| |simpl; split; lia].
    split; [simpl; lia|]. intros _. by apply (int_of_char_bounds c).
Qed.

Lemma strides_token_entry (a b : Z) :
  token_entry ("s" +:+ Py.str_int a +:+ Py.str_int b)
  = Some (if a <? 0 then "s-" else "s", Py.str_int (Z.abs a) +:+ Py.str_int b).
Proof.
  assert (∀ m, 0 ≤ m →
            starts_with_digit (Py.str_int m +:+ Py.str_int b) = true
            ∧ Py.all_chars (λ c, negb (Ascii.eqb c Py.newline))
                (Py.str_int m +:+ Py.str_int b) = true) as Hvalue.
  { intros m Hm.
    destruct (numeric_text_inv _ (numeric_text_str_int m Hm)) as (Hd & _ & Hl & _).
    split; [|by rewrite all_chars_app, Hl, str_int_no_newline].
    by destruct (Py.str_int m). }
  unfold token_entry. destruct (Z.ltb_spec a 0) as [Ha|Ha].
  - rewrite str_int_neg by done.
    change ("s" +:+ String "-" ?v +:+ ?w) with ("s-" +:+ v +:+ w).
    destruct (Hvalue (- a) ltac:(lia)) as [Hd Hl].
    rewrite re_split_token by done. by rewrite <- Z.abs_neq by lia.
  - destruct (Hvalue a Ha) as [Hd Hl].
    rewrite re_split_token by done. by rewrite Z.abs_eq by lia.
Qed.

Lemma options_of_encoded (r k a b e i o : Z) (vse : option string) (skip : bool) :
  (∀ v, vse = Some v → numeric_text v = true) →
  options_of (Py.join "_" (block_tokens (Py.str_int r) (Py.str_int k)
                             (Py.str_int a +:+ Py.str_int b) (Py.str_int e)
                             (Py.str_int i) (Py.str_int o) vse skip))
  = let base : gmap string string :=
      <[(if o <? 0 then "o-" else "o") := Py.str_int (Z.abs o)]>
        (<[(if i <? 0 then "i-" else "i") := Py.str_int (Z.abs i)]>
           (<[(if e <? 0 then "e-" else "e") := Py.str_int (Z.abs e)]>
              (<[(if a <? 0 then "s-" else "s")
                 := Py.str_int (Z.abs a) +:+ Py.str_int b]>
                 (<[(if k <? 0 then "k-" else "k") := Py.str_int (Z.abs k)]>
                    (<[(if r <? 0 then "r-" else "r") := Py.str_int (Z.abs r)]>
                       ∅))))) in
    match vse with
    | Some v => <["se" := v]> base
    | None => base
    end.
Proof.
  intros Hse.
  unfold options_of, block_tokens. rewrite split_join; cycle 1.
  { done. }
  { rewrite !Forall_app. split_and!.
    - repeat constructor; rewrite ?all_chars_app, ?str_int_no_sep;
        by apply andb_true_iff.
    - destruct vse as [v|]; [|done].
      destruct (numeric_text_inv v (Hse v eq_refl)) as (_ & Uv & _).
      repeat constructor. rewrite all_chars_app. by apply andb_true_iff.
    - by destruct skip; repeat constructor. }
  unfold parse_options. rewrite !foldl_app. cbn [foldl].
  pose proof (strides_token_entry a b) as Hs. unfold token_entry in Hs.
  rewrite Hs. rewrite !key_value_int_token by done.
  destruct vse as [v|].
  - destruct (numeric_text_inv v (Hse v eq_refl)) as (Dv & _ & Nv & _).
    cbn [foldl]. rewrite re_split_token by done.
    by destruct skip.
  - by destruct skip.
Qed.

Section RoundTripErrors.

Context `{FloatIO : Py.FloatText}.

(** The string [_encode_block_string] writes, as the tokens of
    [block_tokens]. *)
Lemma encode_as_tokens (block : BlockArgs) (stride0 stride1 : Z) (rest : list Z)
    (x : float) :
  strides block = stride0 :: stride1 :: rest →
  se_ratio block = Some x →
  _encode_block_string block
  = Ok (Py.join "_"
          (block_tokens (Py.str_int (num_repeat block))
             (Py.str_int (kernel_size block))
             (Py.str_int stride0 +:+ Py.str_int stride1)
             (Py.str_int (expand_ratio block))
             (Py.str_int (input_filters block))
             (Py.str_int (output_filters block))
             (if PrimFloat.ltb 0 x && PrimFloat.leb x 1
              then Some (Py.str_float x) else None)
             (id_skip block))).
Proof.
  intros Hstrides Hse. unfold _encode_block_string, block_tokens.
  rewrite Hstrides, Hse. simpl.
  by destruct (PrimFloat.ltb 0 x && PrimFloat.leb x 1), (id_skip block).
Qed.

(** Reading the entry of [key] in the options of an encoded block, and the
    integer of its value. *)
Local Ltac read_option key :=
  rewrite ?(lookup_insert_ne _ _ key)
    by first [done | by match goal with
                        | |- context [?n <? 0] => destruct (n <? 0)
                        end];
  rewrite ?lookup_insert_eq, ?lookup_empty; simpl;
  rewrite ?int_of_str_str_int by done; simpl.

(** X19: [_encode_block_string] does not check the strides, and a
    block whose first two strides are not both integers from 0 to 9 is
    written to a string that cannot be read back: the [s] value has more
    than two characters, or the sign of a negative first stride went to
    the key, and decoding raises the strides error. *)
Theorem round_trip_bad_strides (block : BlockArgs) (stride0 stride1 : Z)
    (rest : list Z) (x : float) :
  strides block = stride0 :: stride1 :: rest →
  ¬ (0 ≤ stride0 ≤ 9 ∧ 0 ≤ stride1 ≤ 9) →
  se_ratio block = Some x →
  (PrimFloat.ltb 0 x && PrimFloat.leb x 1 = true
   → numeric_text (Py.str_float x) = true) →
  round_trip block = Raise ValueError_strides.
Proof.
  intros Hstrides Hbad Hse Htext. unfold round_trip.
  rewrite (encode_as_tokens block stride0 stride1 rest x) by done.
  change (Ok ?s ≫= _decode_block_string) with (_decode_block_string s).
  unfold _decode_block_string. rewrite options_of_encoded; cycle 1.
  { intros v. destruct (PrimFloat.ltb 0 x && PrimFloat.leb x 1); [|done].
    intros [= <-]. by apply Htext. }
  cbv zeta.
  destruct (Z.ltb_spec stride0 0) as [Ha|Ha].
  { by destruct (PrimFloat.ltb 0 x && PrimFloat.leb x 1); read_option "s". }
  assert (Py.len (Py.str_int (Z.abs stride0) +:+ Py.str_int stride1) ≠ 2) as Hlen.
  { intros Hlen. apply Hbad. unfold Py.len in Hlen. rewrite length_app in Hlen.
    rewrite Z.abs_eq in Hlen by done.
    destruct (length_str_int stride0) as [H0 H0'],
      (length_str_int stride1) as [H1 H1'].
    split; [apply H0' | apply H1']; lia. }
  apply Z.eqb_neq in Hlen.
  by destruct (PrimFloat.ltb 0 x && PrimFloat.leb x 1); read_option "s";
    rewrite Hlen.
Qed.

(** X20: a block with a negative count is written with its sign, the
    sign goes to the key of the token, and reading the string back raises
    [KeyError] for the first of [k], [r], [i], [o], [e] whose count is
    negative. *)
Theorem round_trip_negative_count (block : BlockArgs) (stride0 stride1 : Z)
    (rest : list Z) (x : float) (key : string) :
  strides block = stride0 :: stride1 :: rest →
  0 ≤ stride0 ≤ 9 → 0 ≤ stride1 ≤ 9 →
  se_ratio block = Some x →
  (PrimFloat.ltb 0 x && PrimFloat.leb x 1 = true
   → numeric_text (Py.str_float x) = true) →
  first_negative block = Some key →
  round_trip block = Raise (KeyError key).
Proof.
  intros Hstrides Ha Hb Hse Htext Hkey. unfold round_trip.
  rewrite (encode_as_tokens block stride0 stride1 rest x) by done.
  change (Ok ?s ≫= _decode_block_string) with (_decode_block_string s).
  destruct (strides_digits stride0 stride1 Ha Hb) as (_ & Hlen & _).
  apply Z.eqb_eq in Hlen.
  unfold _decode_block_string. rewrite options_of_encoded; cycle 1.
  { intros v. destruct (PrimFloat.ltb 0 x && PrimFloat.leb x 1); [|done].
    intros [= <-]. by apply Htext. }
  cbv zeta. unfold int_option, Py.getitem.
  destruct (Z.ltb_spec stride0 0) as [?|_]; [lia|].
  rewrite (Z.abs_eq stride0) by lia.
  unfold first_negative in Hkey.
  destruct (PrimFloat.ltb 0 x && PrimFloat.leb x 1);
    read_option "s"; rewrite Hlen; simpl.
  all: destruct (Z.ltb_spec (kernel_size block) 0) as [Hk|Hk];
    [injection Hkey as <-; by read_option "k"|].
  all: rewrite (Z.abs_eq (kernel_size block)) by done; read_option "k".
  all: destruct (Z.ltb_spec (num_repeat block) 0) as [Hr|Hr];
    [injection Hkey as <-; by read_option "r"|].
  all: rewrite (Z.abs_eq (num_repeat block)) by done; read_option "r".
  all: destruct (Z.ltb_spec (input_filters block) 0) as [Hi|Hi];
    [injection Hkey as <-; by read_option "i"|].
  all: rewrite (Z.abs_eq (input_filters block)) by done; read_option "i".
  all: destruct (Z.ltb_spec (output_filters block) 0) as [Ho|Ho];
    [injection Hkey as <-; by read_option "o"|].
  all: rewrite (Z.abs_eq (output_filters block)) by done; read_option "o".
  all: destruct (Z.ltb_spec (expand_ratio block) 0) as [He|He]; [|done].
  all: injection Hkey as <-; by read_option "e".
Qed.

End RoundTripErrors.

(** ** The errors of [_decode_block_string] *)

Lemma len_two (s : string) :
  Py.len s = 2 → ∃ c0 c1, s = String c0 (String c1 "").
Proof.
  unfold Py.len. destruct s as [|c0 [|c1 [|c2 s]]]; simpl; try lia.
  intros _. by exists c0, c1.
Qed.

Lemma int_of_str_cases (s : string) :
  Py.int_of_str s = Raise (ValueError_int s) ∨ ∃ n, Py.int_of_str s = Ok n.
Proof.
  unfold Py.int_of_str.
  match goal with |- context [match ?p with Some _ => _ | None => _ end] =>
    destruct p as [n|] end; eauto.
Qed.

Section DecodeErrors.

Context `{FloatIO : Py.FloatText}.

(** X21: the exceptions of [_decode_block_string] are these and no
    others: the strides error, when [s] is absent or its value does not have
    two characters; [KeyError] for one of [k], [r], [i], [o], [e] that is
    absent; the [ValueError] of [int] for the value of one of them, or for
    one of the two characters of [s]; the [ValueError] of [float] for the
    value of [se].  Neither [IndexError] nor [TypeError] nor a [KeyError]
    for [s] or [se] is ever raised. *)
Theorem decode_errors (block_string : string) (err : exn) :
  _decode_block_string block_string = Raise err →
  ((options_of block_string !! "s" = None
    ∨ ∃ s, options_of block_string !! "s" = Some s ∧ Py.len s ≠ 2)
   ∧ err = ValueError_strides)
  ∨ (∃ key, key ∈ ["k"; "r"; "i"; "o"; "e"]
        ∧ options_of block_string !! key = None ∧ err = KeyError key)
  ∨ (∃ key v, key ∈ ["k"; "r"; "i"; "o"; "e"]
        ∧ options_of block_string !! key = Some v
        ∧ Py.int_of_str v = Raise err ∧ err = ValueError_int v)
  ∨ (∃ v, options_of block_string !! "se" = Some v
        ∧ Py.float_of_str v = None ∧ err = ValueError_float v)
  ∨ (∃ c0 c1 c, options_of block_string !! "s" = Some (String c0 (String c1 ""))
        ∧ (c = c0 ∨ c = c1)
        ∧ err = ValueError_int (String c "")).
Proof.
  unfold _decode_block_string.
  destruct (options_of block_string !! "s") as [s|] eqn:Hs;
    [|intros [= <-]; left; by eauto].
  destruct (Z.eqb_spec (Py.len s) 2) as [Hlen|Hlen];
    [simpl|intros [= <-]; left; by eauto 10].
  intros H. right.
  repeat match type of H with
  | int_option ?options ?k ≫= _ = _ =>
      let Hk := fresh "Hk" in
      destruct (int_option_cases options k)
        as [[? Hk] | (? & ? & [Hk | [? Hk]])]; rewrite Hk in H; simpl in H;
      [ injection H as <-; left; eexists; split_and!; [|done|done];
        by repeat constructor
      | injection H as <-; right; left; do 2 eexists;
        split_and!; [|done| |done]; [by repeat constructor|];
        revert Hk; unfold int_option, Py.getitem;
        match goal with Hv : _ !! k = Some _ |- _ => rewrite Hv end; done
      | ]
  end.
  do 2 right.
  destruct (options_of block_string !! "se") as [v|] eqn:Hse.
  { destruct (Py.float_of_str v) as [ratio|] eqn:Hratio; [simpl in H|].
    - right. destruct (len_two s Hlen) as (c0 & c1 & ->).
      unfold Py.getitem in H. rewrite Hs in H. simpl in H.
      exists c0, c1.
      destruct (int_of_str_cases (String c0 "")) as [Hc0|[n0 Hc0]];
        rewrite Hc0 in H; simpl in H.
      { injection H as <-. exists c0. by eauto. }
      destruct (int_of_str_cases (String c1 "")) as [Hc1|[n1 Hc1]];
        rewrite Hc1 in H; simpl in H; [|done].
      injection H as <-. exists c1. by eauto.
    - left. injection H as <-. by exists v. }
  simpl in H. right. destruct (len_two s Hlen) as (c0 & c1 & ->).
  unfold Py.getitem in H. rewrite Hs in H. simpl in H.
  exists c0, c1.
  destruct (int_of_str_cases (String c0 "")) as [Hc0|[n0 Hc0]];
    rewrite Hc0 in H; simpl in H.
  { injection H as <-. exists c0. by eauto. }
  destruct (int_of_str_cases (String c1 "")) as [Hc1|[n1 Hc1]];
    rewrite Hc1 in H; simpl in H; [|done].
  injection H as <-. exists c1. by eauto.
Qed.

End DecodeErrors.

(** ** The theorems at concrete inputs *)

(** C3, counterexample: each string lacks [r], and the error names no
    absent key: the first has a one-character [s] entry and raises the
    strides error, the second has a [k] value that is no integer literal
    and raises the [ValueError] of [int]. *)
Lemma decode_missing_key_not_named :
  options_of "k3_s2_e1_i16_o24" !! "r" = None
  ∧ options_of "k3_s2_e1_i16_o24" !! "s" = Some "2"
  ∧ _decode_block_string "k3_s2_e1_i16_o24" = Raise ValueError_strides
  ∧ options_of "k3x_s22_e1_i16_o24" !! "r" = None
  ∧ options_of "k3x_s22_e1_i16_o24" !! "k" = Some "3x"
  ∧ _decode_block_string "k3x_s22_e1_i16_o24" = Raise (ValueError_int "3x").
Proof. by vm_compute. Qed.

Lemma decode_missing_key_witness :
  "r" ∈ ["s"; "k"; "r"; "i"; "o"; "e"]
  ∧ options_of "k3_s22_e1_i16_o24" !! "r" = None
  ∧ _decode_block_string "k3_s22_e1_i16_o24" = Raise (KeyError "r").
Proof.
  assert ("r" ∈ ["s"; "k"; "r"; "i"; "o"; "e"]) as Hkey by by repeat constructor.
  assert (options_of "k3_s22_e1_i16_o24" !! "r" = None) as Hnone by by vm_compute.
  split_and!; [done|done|].
  destruct (decode_missing_key "k3_s22_e1_i16_o24" "r" Hkey Hnone)
    as (e & He & _ & _ & _ & Hnamed).
  rewrite He. f_equal. apply (Hnamed "22" ["k"] ["i"; "o"; "e"]).
  - by vm_compute.
  - by vm_compute.
  - done.
  - intros k ->%list_elem_of_singleton. by vm_compute.
Defined.

(** C4, counterexample: a token with the key [s] whose value part does
    not have two characters, in a block string that is decoded all the
    same.  In the first string a later [s] token overwrites the entry of
    ["s2"].  In the second the key is followed by five characters, but the
    value ends at the newline and is ["22"]. *)
Lemma decode_strides_length_not_token :
  "s2" ∈ Py.split "_" "r4_k3_s2_s22_e1_i16_o24"
  ∧ key_value (Py.re_split "s2") = Some ("s", "2")
  ∧ Py.len "2" ≠ 2
  ∧ _decode_block_string "r4_k3_s2_s22_e1_i16_o24"
    = Ok {| kernel_size := 3; num_repeat := 4; input_filters := 16;
            output_filters := 24; expand_ratio := 1; id_skip := true;
            se_ratio := None; strides := [2; 2] |}
  ∧ ("s" +:+ "22" +:+ String Py.newline "x9")
    ∈ Py.split "_" ("r1_k3_s22" +:+ String Py.newline "x9_e1_i16_o24")
  ∧ Py.len ("22" +:+ String Py.newline "x9") = 5
  ∧ options_of ("r1_k3_s22" +:+ String Py.newline "x9_e1_i16_o24") !! "s"
    = Some "22"
  ∧ _decode_block_string ("r1_k3_s22" +:+ String Py.newline "x9_e1_i16_o24")
    = Ok {| kernel_size := 3; num_repeat := 1; input_filters := 16;
            output_filters := 24; expand_ratio := 1; id_skip := true;
            se_ratio := None; strides := [2; 2] |}.
Proof.
  split_and!; try by vm_compute.
  - assert (Py.split "_" "r4_k3_s2_s22_e1_i16_o24"
            = ["r4"; "k3"; "s2"; "s22"; "e1"; "i16"; "o24"]) as ->
      by by vm_compute.
    by repeat constructor.
  - assert (Py.split "_" ("r1_k3_s22" +:+ String Py.newline "x9_e1_i16_o24")
            = ["r1"; "k3"; "s" +:+ "22" +:+ String Py.newline "x9"; "e1"; "i16";
               "o24"]) as -> by by vm_compute.
    by repeat constructor.
Qed.

Lemma decode_strides_length_witness :
  Py.split "_" "r4_k3_s2_e1_i16_o24" = ["r4"; "k3"] ++ "s2" :: ["e1"; "i16"; "o24"]
  ∧ key_value (Py.re_split "s2") = Some ("s", "2")
  ∧ Py.len "2" ≠ 2
  ∧ _decode_block_string "r4_k3_s2_e1_i16_o24" = Raise ValueError_strides.
Proof.
  assert (Py.split "_" "r4_k3_s2_e1_i16_o24"
          = ["r4"; "k3"] ++ "s2" :: ["e1"; "i16"; "o24"]) as Hsplit
    by by vm_compute.
  assert (key_value (Py.re_split "s2") = Some ("s", "2")) as Hop by by vm_compute.
  assert (Py.len "2" ≠ 2) as Hlen by by vm_compute.
  split_and!; [done|done|done|].
  refine (decode_strides_length "r4_k3_s2_e1_i16_o24" ["r4"; "k3"]
            ["e1"; "i16"; "o24"] "s2" "2" Hsplit Hop _ Hlen).
  intros op' value' Hin.
  repeat (apply elem_of_cons in Hin as [->|Hin]; [by vm_compute|]).
  by apply elem_of_nil in Hin.
Defined.

Lemma decode_id_skip_witness :
  let block := {| kernel_size := 3; num_repeat := 1; input_filters := 32;
                  output_filters := 16; expand_ratio := 1; id_skip := false;
                  se_ratio := None; strides := [1; 1] |} in
  _decode_block_string "r1_k3_s11_e1_i32_o16_noskip" = Ok block
  ∧ (id_skip block = false
     ↔ ∃ pre post, "r1_k3_s11_e1_i32_o16_noskip" = pre +:+ "noskip" +:+ post)
  ∧ (id_skip block = true
     ↔ ¬ ∃ pre post, "r1_k3_s11_e1_i32_o16_noskip" = pre +:+ "noskip" +:+ post).
Proof.
  intros block.
  assert (_decode_block_string "r1_k3_s11_e1_i32_o16_noskip" = Ok block) as Hdec
    by by vm_compute.
  split; [done|].
  exact (decode_id_skip_iff_noskip "r1_k3_s11_e1_i32_o16_noskip" block Hdec).
Defined.

(** The text [noskip] inside a longer token, one without a digit, switches
    the skip connection off all the same. *)
Example decode_noskip_inside_token :
  _decode_block_string "r1_k3_s11_e1_i32_o16_isnoskipped"
  = Ok {| kernel_size := 3; num_repeat := 1; input_filters := 32;
          output_filters := 16; expand_ratio := 1; id_skip := false;
          se_ratio := None; strides := [1; 1] |}.
Proof. by vm_compute. Qed.

Lemma decode_duplicate_key_witness :
  Py.split "_" "r1_r2_k3_s11_e1_i16_o24"
  = [] ++ "r1" :: ["r2"; "k3"; "s11"; "e1"; "i16"; "o24"]
  ∧ key_value (Py.re_split "r1") = Some ("r", "1")
  ∧ key_value (Py.re_split "r2") = Some ("r", "2")
  ∧ _decode_block_string "r1_r2_k3_s11_e1_i16_o24"
    = _decode_block_string "r2_k3_s11_e1_i16_o24".
Proof.
  assert (Py.split "_" "r1_r2_k3_s11_e1_i16_o24"
          = [] ++ "r1" :: ["r2"; "k3"; "s11"; "e1"; "i16"; "o24"]) as Hsplit
    by by vm_compute.
  assert (key_value (Py.re_split "r1") = Some ("r", "1")) as Hop by by vm_compute.
  assert (key_value (Py.re_split "r2") = Some ("r", "2")) as Hlater
    by by vm_compute.
  split_and!; [done|done|done|].
  refine (proj1 (proj2 decode_duplicate_key_last_wins)
            "r1_r2_k3_s11_e1_i16_o24" []
            ["r2"; "k3"; "s11"; "e1"; "i16"; "o24"] "r1" "r2" "r" "1" "2"
            Hsplit Hop _ Hlater _).
  - by left.
  - by vm_compute.
Defined.

Lemma replace_known_fields_witness :
  let global_params :=
    {| batch_norm_momentum := Py.Float 0.99; batch_norm_epsilon := Py.Float 1e-3;
       dropout_rate := Py.Float 0.2; data_format := Py.Str "channels_last";
       num_classes := Py.Int 1000; depth_multiplier := Py.None_;
       depth_divisor := Py.Int 8; expratio := Py.Int 3; kernel := Py.Int 5;
       min_depth := Py.None_ |} in
  let kwds : gmap string Py.value := {[ "dropout_rate" := Py.Float 0.5 ]} in
  ∃ result, apply_overrides global_params (Some kwds) = Ok result
    ∧ ∀ name, getattr result name
              = match kwds !! name with
                | Some v => Some v
                | None => getattr global_params name
                end.
Proof.
  intros global_params kwds.
  apply (replace_known_fields global_params kwds).
  intros name [v [<- _]%lookup_singleton_Some]. by repeat constructor.
Defined.

Lemma replace_unknown_field_witness :
  let global_params :=
    {| batch_norm_momentum := Py.Float 0.99; batch_norm_epsilon := Py.Float 1e-3;
       dropout_rate := Py.Float 0.2; data_format := Py.Str "channels_last";
       num_classes := Py.Int 1000; depth_multiplier := Py.None_;
       depth_divisor := Py.Int 8; expratio := Py.Int 3; kernel := Py.Int 5;
       min_depth := Py.None_ |} in
  let kwds : gmap string Py.value := {[ "nonexistent_field" := Py.Int 1 ]} in
  ∃ names, apply_overrides global_params (Some kwds)
           = Raise (ValueError_fields names)
    ∧ "nonexistent_field" ∈ names
    ∧ ∀ n, n ∈ names ↔ is_Some (kwds !! n) ∧ n ∉ _fields.
Proof.
  intros global_params kwds.
  apply (replace_unknown_field global_params kwds "nonexistent_field").
  - exists (Py.Int 1). by vm_compute.
  - intros Hin. unfold _fields in Hin.
    repeat (apply elem_of_cons in Hin as [[=]|Hin]).
    by apply elem_of_nil in Hin.
Defined.

Lemma encode_with_se_ratio_witness :
  let block := {| kernel_size := 3; num_repeat := 1; input_filters := 32;
                  output_filters := 16; expand_ratio := 1; id_skip := false;
                  se_ratio := Some 0.25%float; strides := [1; 1] |} in
  strides block = [1; 1]
  ∧ se_ratio block = Some 0.25%float
  ∧ _encode_block_string block = Ok "r1_k3_s11_e1_i32_o16_se0.25_noskip".
Proof.
  intros block. split_and!; [done|done|].
  rewrite (encode_with_se_ratio block 1 1 [] 0.25%float eq_refl eq_refl).
  by vm_compute.
Defined.

Lemma round_trip_with_se_ratio_witness :
  let block := {| kernel_size := 3; num_repeat := 1; input_filters := 32;
                  output_filters := 16; expand_ratio := 1; id_skip := false;
                  se_ratio := Some 0.25%float; strides := [1; 1] |} in
  valid_block block = true
  ∧ Py.str_float 0.25%float = "0.25"
  ∧ Py.float_of_str "0.25" = Some 0.25%float
  ∧ round_trip block = Ok block.
Proof.
  intros block.
  assert (valid_block block = true) as Hvalid by by vm_compute.
  assert (numeric_text (Py.str_float 0.25%float) = true) as Htext by by vm_compute.
  assert (Py.float_of_str (Py.str_float 0.25%float) = Some 0.25%float) as Hfloat
    by by vm_compute.
  split_and!; [exact Hvalid|by vm_compute|by vm_compute|].
  exact (round_trip_with_se_ratio block 0.25%float Hvalid eq_refl Htext Hfloat).
Defined.

Lemma decode_encode_sequence_witness :
  let blocks_args :=
    [ {| kernel_size := 3; num_repeat := 1; input_filters := 32;
         output_filters := 16; expand_ratio := 1; id_skip := false;
         se_ratio := Some 0.25%float; strides := [1; 1] |};
      {| kernel_size := 5; num_repeat := 4; input_filters := 16;
         output_filters := 24; expand_ratio := 3; id_skip := true;
         se_ratio := Some 1%float; strides := [2; 2] |} ] in
  encode blocks_args = Ok ["r1_k3_s11_e1_i32_o16_se0.25_noskip";
                           "r4_k5_s22_e3_i16_o24_se1.0"]
  ∧ encode blocks_args ≫= decode = Ok blocks_args.
Proof.
  intros blocks_args. split; [by vm_compute|].
  apply (decode_encode_sequence blocks_args).
  apply Forall_cons. split; [by vm_compute|].
  apply Forall_cons. split; [by vm_compute|]. by apply Forall_nil.
Defined.

Lemma mnasnet_backbone_blocks_witness :
  0 ≤ 7 ∧ 0 ≤ 6
  ∧ ∃ blocks_args global_params,
      mnasnet_backbone 7 6 = Ok (blocks_args, global_params)
      ∧ (λ block, (kernel_size block, expand_ratio block, id_skip block))
          <$> blocks_args
        = [ (3, 1, false); (7, 6, true); (7, 6, true); (7, 6, true);
            (7, 6, true); (7, 6, true); (3, 6, false) ].
Proof.
  assert (0 ≤ 7) as Hk by lia. assert (0 ≤ 6) as He by lia.
  split_and!; [done|done|].
  destruct (mnasnet_backbone_blocks 7 6 Hk He) as [global_params Hblocks].
  eexists _, global_params. by split; [exact Hblocks|].
Defined.

Lemma build_unknown_model_name_witness :
  "mnasnet-a1" ≠ "mnasnet-backbone"
  ∧ build_mnasnet_model "mnasnet-a1" None
    = Raise (NotImplementedError "mnasnet-a1").
Proof.
  assert ("mnasnet-a1" ≠ "mnasnet-backbone") as Hname by done.
  split; [done|]. exact (build_unknown_model_name "mnasnet-a1" None Hname).
Defined.

Lemma decode_block_ranges_witness :
  ∃ block,
    _decode_block_string "r1_k3_s11_e1_i32_o16_noskip" = Ok block
    ∧ 0 ≤ kernel_size block ∧ 0 ≤ num_repeat block ∧ 0 ≤ input_filters block
    ∧ 0 ≤ output_filters block ∧ 0 ≤ expand_ratio block
    ∧ (∃ stride0 stride1,
         strides block = [stride0; stride1]
         ∧ 0 ≤ stride0 ≤ 9 ∧ 0 ≤ stride1 ≤ 9)
    ∧ (se_ratio block = None
       ↔ options_of "r1_k3_s11_e1_i32_o16_noskip" !! "se" = None).
Proof.
  destruct (_decode_block_string "r1_k3_s11_e1_i32_o16_noskip")
    as [block|] eqn:Hblock; [|by vm_compute in Hblock].
  exists block. split; [done|].
  exact (decode_block_ranges "r1_k3_s11_e1_i32_o16_noskip" block Hblock).
Defined.

Lemma encode_decoded_block_witness :
  ∃ block,
    _decode_block_string "r4_k3_s22_e1_i16_o24" = Ok block
    ∧ options_of "r4_k3_s22_e1_i16_o24" !! "se" = None
    ∧ _encode_block_string block
      = Raise (TypeError "'>' not supported between instances of 'NoneType' and 'int'").
Proof.
  destruct (_decode_block_string "r4_k3_s22_e1_i16_o24")
    as [block|] eqn:Hblock; [|by vm_compute in Hblock].
  assert (options_of "r4_k3_s22_e1_i16_o24" !! "se" = None) as Hse
    by by vm_compute.
  exists block. split_and!; [done|done|].
  pose proof (encode_decoded_block "r4_k3_s22_e1_i16_o24" block Hblock) as Hw.
  by rewrite Hse in Hw.
Defined.

Lemma round_trip_decoded_block_witness :
  let block := {| kernel_size := 3; num_repeat := 1; input_filters := 32;
                  output_filters := 16; expand_ratio := 1; id_skip := false;
                  se_ratio := Some 0.25%float; strides := [1; 1] |} in
  _decode_block_string "noskip_se0.25_o16_i32_e01_s11_k3_r1" = Ok block
  ∧ round_trip block = Ok block.
Proof.
  intros block.
  assert (_decode_block_string "noskip_se0.25_o16_i32_e01_s11_k3_r1" = Ok block)
    as Hblock by by vm_compute.
  assert (PrimFloat.ltb 0 0.25 && PrimFloat.leb 0.25 1 = true) as Hrange
    by by vm_compute.
  assert (numeric_text (Py.str_float 0.25%float) = true) as Htext by by vm_compute.
  assert (Py.float_of_str (Py.str_float 0.25%float) = Some 0.25%float) as Hfloat
    by by vm_compute.
  split; [exact Hblock|].
  exact (round_trip_decoded_block _ block 0.25%float Hblock eq_refl Hrange Htext
           Hfloat).
Defined.

Lemma round_trip_out_of_range_witness :
  let block := {| kernel_size := 3; num_repeat := 1; input_filters := 32;
                  output_filters := 16; expand_ratio := 1; id_skip := true;
                  se_ratio := Some 2%float; strides := [2; 2; 7] |} in
  PrimFloat.ltb 0 2 && PrimFloat.leb 2 1 = false
  ∧ round_trip block
    = Ok {| kernel_size := 3; num_repeat := 1; input_filters := 32;
            output_filters := 16; expand_ratio := 1; id_skip := true;
            se_ratio := None; strides := [2; 2] |}.
Proof.
  intros block.
  assert (PrimFloat.ltb 0 2 && PrimFloat.leb 2 1 = false) as Hrange
    by by vm_compute.
  split; [exact Hrange|].
  apply (round_trip_out_of_range block 2 2 [7] 2%float);
    [simpl; lia..|reflexivity|lia|lia|reflexivity|exact Hrange].
Defined.

Lemma decode_token_order_witness :
  Py.split "_" "r1_k3_s11_e1_i32_o16_noskip"
  ≡ₚ Py.split "_" "noskip_o16_i32_e1_s11_k3_r1"
  ∧ _decode_block_string "r1_k3_s11_e1_i32_o16_noskip"
    = _decode_block_string "noskip_o16_i32_e1_s11_k3_r1".
Proof.
  assert (Py.split "_" "r1_k3_s11_e1_i32_o16_noskip"
          ≡ₚ Py.split "_" "noskip_o16_i32_e1_s11_k3_r1") as Hperm.
  { change (Py.split "_" "noskip_o16_i32_e1_s11_k3_r1")
      with (reverse (Py.split "_" "r1_k3_s11_e1_i32_o16_noskip")).
    by rewrite reverse_Permutation. }
  split; [exact Hperm|].
  apply decode_token_order; [exact Hperm|].
  change (NoDup ["r"; "k"; "s"; "e"; "i"; "o"]).
  apply NoDup_ListNoDup. repeat constructor; simpl; intuition discriminate.
Defined.

Lemma decode_ignores_token_witness :
  _decode_block_string ("r1_k3_s11_e1_i32_o16" +:+ "_" +:+ "x7")
  = _decode_block_string "r1_k3_s11_e1_i32_o16".
Proof.
  apply decode_ignores_token; [reflexivity|reflexivity|].
  intros key value Hentry. vm_compute in Hentry. injection Hentry as <- <-.
  intros Hin.
  repeat (apply elem_of_cons in Hin as [Hin|Hin]; [discriminate Hin|]).
  by apply elem_of_nil in Hin.
Defined.

Lemma mnasnet_backbone_negative_witness :
  (-3 < 0 ∨ 3 < 0) ∧ mnasnet_backbone (-3) 3 = Raise (KeyError "k").
Proof.
  assert (-3 < 0 ∨ 3 < 0) as Hneg by (left; lia).
  split; [exact Hneg|]. exact (mnasnet_backbone_negative (-3) 3 Hneg).
Defined.

Lemma build_backbone_result_witness :
  ∃ blocks_args global_params,
    build_mnasnet_model "mnasnet-backbone"
      (Some (<["kernel" := Py.Str "5"]> (<["expratio" := Py.Str "3"]> ∅)))
    = Ok (blocks_args, global_params)
    ∧ kernel global_params = Py.Str "5"
    ∧ expratio global_params = Py.Str "3"
    ∧ ∃ preset, mnasnet_backbone 5 3 = Ok (blocks_args, preset).
Proof.
  destruct (build_mnasnet_model "mnasnet-backbone"
              (Some (<["kernel" := Py.Str "5"]> (<["expratio" := Py.Str "3"]> ∅))))
    as [[blocks_args global_params]|] eqn:Hbuild; [|by vm_compute in Hbuild].
  destruct (build_backbone_result _ blocks_args global_params Hbuild)
    as (kwds & k & e & preset & [= <-] & Hvk & Hve & Hk & He & Hpreset & _).
  rewrite lookup_insert_eq in Hvk. injection Hvk as Hvk.
  rewrite lookup_insert_ne, lookup_insert_eq in Hve by done. injection Hve as Hve.
  rewrite <- Hvk in Hk. rewrite <- Hve in He.
  vm_compute in Hk. vm_compute in He. injection Hk as <-. injection He as <-.
  exists blocks_args, global_params. split_and!; [done|done|done|].
  by exists preset.
Defined.

Lemma build_backbone_parameter_errors_witness :
  build_mnasnet_model "mnasnet-backbone" (Some ∅) = Raise (KeyError "kernel")
  ∧ build_mnasnet_model "mnasnet-backbone"
      (Some (<["kernel" := Py.Int (-3)]> (<["expratio" := Py.Int 3]> ∅)))
    = Raise (KeyError "k").
Proof.
  destruct build_backbone_parameter_errors
    as (_ & Hkernel & _ & _ & _ & Hnegative).
  split.
  - apply Hkernel. apply lookup_empty.
  - apply (Hnegative _ (Py.Int (-3)) (-3) (Py.Int 3) 3);
      [by rewrite lookup_insert_eq|done
      |by rewrite lookup_insert_ne, lookup_insert_eq|done|left; lia].
Defined.

Lemma round_trip_bad_strides_witness :
  let block := {| kernel_size := 3; num_repeat := 1; input_filters := 32;
                  output_filters := 16; expand_ratio := 1; id_skip := true;
                  se_ratio := Some 0.25%float; strides := [10; 1] |} in
  ¬ (0 ≤ 10 ≤ 9 ∧ 0 ≤ 1 ≤ 9)
  ∧ _encode_block_string block = Ok "r1_k3_s101_e1_i32_o16_se0.25"
  ∧ round_trip block = Raise ValueError_strides.
Proof.
  intros block.
  assert (¬ (0 ≤ 10 ≤ 9 ∧ 0 ≤ 1 ≤ 9)) as Hbad by lia.
  assert (numeric_text (Py.str_float 0.25%float) = true) as Htext by by vm_compute.
  split_and!; [exact Hbad|by vm_compute|].
  exact (round_trip_bad_strides block 10 1 [] 0.25%float eq_refl Hbad eq_refl
           (λ _, Htext)).
Defined.

Lemma round_trip_negative_count_witness :
  let block := {| kernel_size := -3; num_repeat := 1; input_filters := 32;
                  output_filters := 16; expand_ratio := 1; id_skip := true;
                  se_ratio := Some 0.25%float; strides := [1; 1] |} in
  first_negative block = Some "k"
  ∧ _encode_block_string block = Ok "r1_k-3_s11_e1_i32_o16_se0.25"
  ∧ round_trip block = Raise (KeyError "k").
Proof.
  intros block.
  assert (numeric_text (Py.str_float 0.25%float) = true) as Htext by by vm_compute.
  assert (0 ≤ 1 ≤ 9) as Hdigit by lia.
  split_and!; [reflexivity|by vm_compute|].
  exact (round_trip_negative_count block 1 1 [] 0.25%float "k" eq_refl Hdigit
           Hdigit eq_refl (λ _, Htext) eq_refl).
Defined.

Lemma decode_errors_witness :
  _decode_block_string "r1_k3x_s22_e1_i16_o24" = Raise (ValueError_int "3x")
  ∧ ∃ key v, key ∈ ["k"; "r"; "i"; "o"; "e"]
      ∧ options_of "r1_k3x_s22_e1_i16_o24" !! key = Some v
      ∧ ValueError_int "3x" = ValueError_int v.
Proof.
  assert (_decode_block_string "r1_k3x_s22_e1_i16_o24"
          = Raise (ValueError_int "3x")) as Hraise by by vm_compute.
  split; [exact Hraise|].
  destruct (decode_errors _ _ Hraise)
    as [[_ [=]] | [(key & _ & _ & [=]) | [(key & v & Hkey & Hv & _ & Herr)
       | [(v & _ & _ & [=]) | (c0 & c1 & c & _ & _ & [=])]]]].
  by exists key, v.
Defined.
